(** * ropee: the remote-read / remote-write gateway of [main.go]

    A shallow embedding of the two HTTP handlers that [main] registers
    ([/read] and [/write]) and of the start-up code around them.

    The handlers are straight-line Go with early returns.  They are
    embedded by explicit state passing: the [http.ResponseWriter] the
    handler mutates is threaded as a value, and everything process-wide
    (the two request counters, the log sink, the remote store behind the
    [storage] client) lives in a [World].

    Packages that [main.go] imports but that are not part of the file are
    interfaces here: [snappy] and [proto] are type classes of codecs,
    [storage] is a type class with a client type, a constructor and the two
    calls, the counters of [metrics] are integers of the [World];
    [net/http]'s response writer is modelled by its documented
    behaviour (header snapshot at the first [WriteHeader], implicit 200 on
    the first [Write], later [WriteHeader] calls ignored). *)

From Stdlib Require Import ZArith List String Ascii Bool Lia.
From Stdlib.Strings Require Import Byte.
From stdpp Require Import base option list gmap strings.

(** ** Go values *)

(** [[]byte] *)
Abbreviation bytes := (list byte).

(** A Go [error], identified with its [Error()] text. *)
Abbreviation error := string (only parsing).

(** The pair [(T, error)] of a call whose value is only looked at when the
    error is [nil]. *)
Inductive result (A : Type) : Type :=
| Ok (a : A)
| Err (e : error).
Arguments Ok {A} a.
Arguments Err {A} e.

Definition is_Ok {A} (r : result A) : bool :=
  match r with Ok _ => true | Err _ => false end.

(** ** package time *)
Module time.

(** [type Duration int64], nanoseconds. *)
Abbreviation Duration := Z (only parsing).

Definition wrap64 (z : Z) : Z :=
  ((z + 2 ^ 63) mod 2 ^ 64 - 2 ^ 63)%Z.

Definition Second : Duration := 1000000000%Z.

(** [a * b] on [Duration]: int64 multiplication, which wraps. *)
Definition mul (a b : Duration) : Duration := wrap64 (a * b).

(** [time.Duration(n)] for an [int] already inside the int64 range. *)
Definition of_int (n : Z) : Duration := wrap64 n.

End time.

(** ** The [Config] struct and the flag defaults of [init] *)

Record Config := {
  SplunkUrl : string;
  SplunkMetricsIndex : string;
  SplunkMetricsSourceType : string;
  SplunkHECURL : string;
  SplunkHECToken : string;
  TimeoutSeconds : Z;
  ListenAddr : string;
  LogFilePath : string;
  Debug : bool;
}.

Definition flagDefaults : Config := {|
  SplunkUrl := "https://127.0.0.1:8089";
  SplunkMetricsIndex := "*";
  SplunkMetricsSourceType := "DaoCloud_promu_metrics";
  SplunkHECURL := "https://127.0.0.1:8088";
  SplunkHECToken := "";
  TimeoutSeconds := 60;
  ListenAddr := "127.0.0.1:9970";
  LogFilePath := "/var/log";
  Debug := false;
|}.

(** ** package snappy, package proto, package prompb *)

Module snappy.
(** [snappy.Encode(nil, src)] and [snappy.Decode(nil, src)] of the
    golang/snappy library: compression cannot fail, decompression can. *)
Class Codec := {
  Encode : bytes → bytes;
  Decode : bytes → result bytes;
}.
End snappy.

Module proto.
(** [proto.Marshal] and [proto.Unmarshal] of the golang/protobuf
    library at one message type; both return an error next to their
    value. *)
Class Message (M : Type) := {
  Marshal : M → result bytes;
  Unmarshal : bytes → result M;
}.
End proto.

Module prompb.
(** The three message types of prometheus/prompb the gateway moves
    around.  The handlers never look inside them. *)
Class Types := {
  WriteRequest : Type;
  ReadRequest : Type;
  ReadResponse : Type;
  WriteRequest_Message :: proto.Message WriteRequest;
  ReadRequest_Message :: proto.Message ReadRequest;
  ReadResponse_Message :: proto.Message ReadResponse;
}.
End prompb.

#[global] Existing Instances
  prompb.WriteRequest_Message
  prompb.ReadRequest_Message
  prompb.ReadResponse_Message.

(** ** package log/level *)

Module level.

Inductive Value := DebugValue | InfoValue | WarnValue | ErrorValue.

(** A logger behind [level.NewFilter]: the levels it lets through. *)
Record Logger := { allowed : Value → bool }.

Definition AllowDebug : Logger := {| allowed := λ _, true |}.

Definition AllowInfo : Logger :=
  {| allowed := λ v, match v with DebugValue => false | _ => true end |}.

End level.

(** ** package storage *)

Module storage.

(** The arguments of [storage.NewClient], in the order [main.go] passes
    them; the last is the logger [l], of which the filter is kept. *)
Record ClientArgs := {
  url : string;
  user : string;
  password : string;
  index : string;
  sourceType : string;
  hecUrl : string;
  hecToken : string;
  timeout : time.Duration;
  logger : level.Logger;
}.

(** Modelled from the spec: package [storage] is imported by [main.go] but
    is not part of it; section 4.2 gives it as the interface the gateway
    depends on, a construction that may fail and the calls
    [write(batch)] and [read(query)] that return an error or a result.
    [Client] is [*storage.Client]: whatever [NewClient] returns next to
    its error, a nil pointer included.  [Remote] is the store the client
    talks to; [Read] and [Write] may change it.  Both calls return, and a
    read that reports no error returns a response: a call that panics on
    a nil handle, and a nil response next to a nil error (on which
    [proto.Marshal] would panic), are not represented. *)
Class Backend `{prompb.Types} := {
  Client : Type;
  Remote : Type;
  NewClient : ClientArgs → Client * option error;
  Read : Client → prompb.ReadRequest → Remote →
         result prompb.ReadResponse * Remote;
  Write : Client → prompb.WriteRequest → Remote →
          option error * Remote;
}.

End storage.

(** ** package net/http *)

Module http.

Definition StatusOK : Z := 200.
Definition StatusBadRequest : Z := 400.
Definition StatusInternalServerError : Z := 500.

(** [r.Body] as [ioutil.ReadAll] sees it: the bytes that arrive and the
    error, if any, that ends the stream before [EOF]. *)
Record Reader := {
  content : bytes;
  failure : option error;
}.

(** The parts of [*http.Request] a handler could look at.
    [Credentials] is what the [Authorization] header decodes to when it
    is a well-formed Basic header. *)
Record Request := {
  Method : string;
  Credentials : option (string * string);
  Body : Reader;
}.

Definition BasicAuth (r : Request) : string * string * bool :=
  match Credentials r with
  | Some (username, password) => (username, password, true)
  | None => (""%string, ""%string, false)
  end.

(** [http.ResponseWriter].  [header] is the map [w.Header()] hands out;
    [sent] is its snapshot when the status line went out; [written] lists
    every [Write] call with its payload and the error it returned;
    [conn] gives the errors of the [Write] calls still to come (none left:
    the connection accepts everything). *)
Record ResponseWriter := {
  header : gmap string (list string);
  wroteHeader : bool;
  status : Z;
  sent : gmap string (list string);
  written : list (bytes * option error);
  conn : list (option error);
}.

Definition newResponse (c : list (option error)) : ResponseWriter := {|
  header := ∅;
  wroteHeader := false;
  status := 0;
  sent := ∅;
  written := [];
  conn := c;
|}.

(** [w.Header().Set(key, value)] *)
Definition Header_Set (w : ResponseWriter) (key value : string)
  : ResponseWriter := {|
  header := <[key := [value]]> (header w);
  wroteHeader := wroteHeader w;
  status := status w;
  sent := sent w;
  written := written w;
  conn := conn w;
|}.

(** [w.WriteHeader(code)]: the first call commits status and headers,
    later calls are ignored. *)
Definition WriteHeader (w : ResponseWriter) (code : Z) : ResponseWriter :=
  if wroteHeader w then w
  else {|
    header := header w;
    wroteHeader := true;
    status := code;
    sent := header w;
    written := written w;
    conn := conn w;
  |}.

(** What the connection answers to the next write. *)
Definition next (c : list (option error)) : option error :=
  match c with
  | [] => None
  | e :: _ => e
  end.

(** [w.Write(data)] *)
Definition Write (w : ResponseWriter) (data : bytes)
  : ResponseWriter * option error :=
  let w := if wroteHeader w then w else WriteHeader w StatusOK in
  let err := next (conn w) in
  ({|
    header := header w;
    wroteHeader := wroteHeader w;
    status := status w;
    sent := sent w;
    written := written w ++ [(data, err)];
    conn := tail (conn w);
  |}, err).

Definition newline : string := String "010"%char EmptyString.

(** [http.Error(w, error, code)]; the result of its [Fprintln] is
    dropped. *)
Definition Error (w : ResponseWriter) (msg : string) (code : Z)
  : ResponseWriter :=
  let w := Header_Set w "Content-Type" "text/plain; charset=utf-8" in
  let w := Header_Set w "X-Content-Type-Options" "nosniff" in
  let w := WriteHeader w code in
  fst (Write w (list_byte_of_string (msg +:+ newline))).

(** The body the peer received: the payloads of the writes that went
    through. *)
Definition body (w : ResponseWriter) : bytes :=
  flat_map (λ p, match snd p with None => fst p | Some _ => [] end)
           (written w).

End http.

(** ** package io/ioutil *)

Definition ioutil_ReadAll (r : http.Reader) : result bytes :=
  match http.failure r with
  | Some e => Err e
  | None => Ok (http.content r)
  end.

(** [loadLogger]: the sink (standard output or the rotated file) and the
    [time] and [caller] fields added by [log.With] are left out; the filter
    chosen from [config.Debug] is kept. *)
Definition loadLogger (config : Config) : level.Logger :=
  if Debug config then level.AllowDebug else level.AllowInfo.

(** ** The gateway *)

Section Gateway.

Context `{Ty : prompb.Types} `{St : !storage.Backend} `{Sn : snappy.Codec}.

(** What a log call is given as a value. *)
Inductive LogValue :=
| LogString (s : string)
| LogError (e : error)
| LogQuery (q : prompb.ReadRequest).

Record Entry := {
  lvl : level.Value;
  keyvals : list (string * LogValue);
}.

(** Every call into package [storage], in order of occurrence. *)
Inductive Call :=
| CallNewClient (a : storage.ClientArgs) (c : storage.Client)
                (err : option error)
| CallRead (c : storage.Client) (q : prompb.ReadRequest)
| CallWrite (c : storage.Client) (b : prompb.WriteRequest).

(** Process-wide state: the two counters of package [metrics], the
    records that reached the log sink, the calls made into [storage] and
    the store behind it.

    Modelled from the spec: package [metrics] is imported by [main.go] but
    is not part of it; section 6 describes a registry of monotonically
    increasing named counters.  A counter is an integer here and [Add(n)]
    adds [n] to it. *)
Record World := {
  ReadRequestCounter : Z;
  WriteRequestCounter : Z;
  logged : list Entry;
  calls : list Call;
  remote : storage.Remote;
}.

Definition initialWorld (rem : storage.Remote) : World := {|
  ReadRequestCounter := 0;
  WriteRequestCounter := 0;
  logged := [];
  calls := [];
  remote := rem;
|}.

(** [level.X(l).Log(keyvals...)] *)
Definition Log (l : level.Logger) (v : level.Value)
           (kv : list (string * LogValue)) (σ : World) : World :=
  if level.allowed l v then {|
    ReadRequestCounter := ReadRequestCounter σ;
    WriteRequestCounter := WriteRequestCounter σ;
    logged := logged σ ++ [{| lvl := v; keyvals := kv |}];
    calls := calls σ;
    remote := remote σ;
  |} else σ.

(** [metrics.ReadRequestCounter.Add(n)] *)
Definition ReadRequestCounter_Add (n : Z) (σ : World) : World := {|
  ReadRequestCounter := ReadRequestCounter σ + n;
  WriteRequestCounter := WriteRequestCounter σ;
  logged := logged σ;
  calls := calls σ;
  remote := remote σ;
|}.

(** [metrics.WriteRequestCounter.Add(n)] *)
Definition WriteRequestCounter_Add (n : Z) (σ : World) : World := {|
  ReadRequestCounter := ReadRequestCounter σ;
  WriteRequestCounter := WriteRequestCounter σ + n;
  logged := logged σ;
  calls := calls σ;
  remote := remote σ;
|}.

Definition record (c : Call) (rem : storage.Remote) (σ : World) : World := {|
  ReadRequestCounter := ReadRequestCounter σ;
  WriteRequestCounter := WriteRequestCounter σ;
  logged := logged σ;
  calls := calls σ ++ [c];
  remote := rem;
|}.

(** [storage.NewClient(...)] *)
Definition storage_NewClient (a : storage.ClientArgs) (σ : World)
  : storage.Client * option error * World :=
  let '(c, err) := storage.NewClient a in
  (c, err, record (CallNewClient a c err) (remote σ) σ).

(** [c.Read(&req)] *)
Definition Client_Read (c : storage.Client) (req : prompb.ReadRequest)
           (σ : World) : result prompb.ReadResponse * World :=
  let '(res, rem) := storage.Read c req (remote σ) in
  (res, record (CallRead c req) rem σ).

(** [c.Write(&req)] *)
Definition Client_Write (c : storage.Client) (req : prompb.WriteRequest)
           (σ : World) : option error * World :=
  let '(err, rem) := storage.Write c req (remote σ) in
  (err, record (CallWrite c req) rem σ).

Variable config : Config.

(** The client timeout both constructions pass:
    [time.Second*time.Duration(config.TimeoutSeconds)]. *)
Definition clientTimeout : time.Duration :=
  time.mul time.Second (time.of_int (TimeoutSeconds config)).

(** The function literal registered for [/read]. *)
Definition readHandler (l : level.Logger) (w : http.ResponseWriter)
           (r : http.Request) (σ : World) : http.ResponseWriter * World :=
  match ioutil_ReadAll (http.Body r) with
  | Err err =>
      let σ := Log l level.ErrorValue
                 [("msg", LogString "Read error"); ("err", LogString err)] σ in
      (http.Error w err http.StatusInternalServerError, σ)
  | Ok compressed =>
  match snappy.Decode compressed with
  | Err err =>
      let σ := Log l level.ErrorValue
                 [("msg", LogString "Decode error"); ("err", LogString err)] σ in
      (http.Error w err http.StatusBadRequest, σ)
  | Ok reqBuf =>
  let σ := ReadRequestCounter_Add 1 σ in
  match proto.Unmarshal (M := prompb.ReadRequest) reqBuf with
  | Err err =>
      let σ := Log l level.ErrorValue
                 [("msg", LogString "Unmarshal error"); ("err", LogString err)] σ in
      (http.Error w err http.StatusBadRequest, σ)
  | Ok req =>
  let '(user, pass, _) := http.BasicAuth r in
  let '(readClient, _, σ) :=
    storage_NewClient {|
      storage.url := SplunkUrl config;
      storage.user := user;
      storage.password := pass;
      storage.index := SplunkMetricsIndex config;
      storage.sourceType := SplunkMetricsSourceType config;
      storage.hecUrl := SplunkHECURL config;
      storage.hecToken := SplunkHECToken config;
      storage.timeout := clientTimeout;
      storage.logger := l;
    |} σ in
  let '(res, σ) := Client_Read readClient req σ in
  match res with
  | Err err => (http.Error w err http.StatusInternalServerError, σ)
  | Ok resp =>
  match proto.Marshal resp with
  | Err err => (http.Error w err http.StatusInternalServerError, σ)
  | Ok data =>
  let w := http.Header_Set w "Content-Type" "application/x-protobuf" in
  let w := http.Header_Set w "Content-Encoding" "snappy" in
  let compressed := snappy.Encode data in
  let '(w, werr) := http.Write w compressed in
  match werr with
  | Some err =>
      let σ := Log l level.WarnValue
                 [("msg", LogString "Error executing query");
                  ("query", LogQuery req); ("err", LogError err)] σ in
      (http.Error w err http.StatusInternalServerError, σ)
  | None => (w, σ)
  end end end end end end.

(** The function literal registered for [/write]; [writeClient] is the
    variable of [main] it closes over. *)
Definition writeHandler (l : level.Logger) (writeClient : storage.Client)
           (w : http.ResponseWriter) (r : http.Request) (σ : World)
  : http.ResponseWriter * World :=
  match ioutil_ReadAll (http.Body r) with
  | Err err =>
      let σ := Log l level.ErrorValue
                 [("msg", LogString "Read error"); ("err", LogString err)] σ in
      (http.Error w err http.StatusInternalServerError, σ)
  | Ok compressed =>
  match snappy.Decode compressed with
  | Err err =>
      let σ := Log l level.ErrorValue
                 [("msg", LogString "Decode error"); ("err", LogString err)] σ in
      (http.Error w err http.StatusBadRequest, σ)
  | Ok reqBuf =>
  let σ := WriteRequestCounter_Add 1 σ in
  match proto.Unmarshal (M := prompb.WriteRequest) reqBuf with
  | Err err =>
      let σ := Log l level.ErrorValue
                 [("msg", LogString "Unmarshal error"); ("err", LogString err)] σ in
      (http.Error w err http.StatusBadRequest, σ)
  | Ok req =>
  let '(err, σ) := Client_Write writeClient req σ in
  match err with
  | Some err => (http.Error w err http.StatusInternalServerError, σ)
  | None =>
  let w := http.WriteHeader w 200 in
  let '(w, werr) := http.Write w (list_byte_of_string "ok") in
  match werr with
  | Some err =>
      (w, Log l level.ErrorValue
            [("action", LogString "write"); ("err", LogError err)] σ)
  | None => (w, σ)
  end end end end end.

(** [main] up to [http.ListenAndServe]: the logger, the one write client,
    the start-up record. *)
Record Server := {
  logger : level.Logger;
  writeClient : storage.Client;
}.

Definition main (σ : World) : Server * World :=
  let l := loadLogger config in
  let '(writeClient, _, σ) :=
    storage_NewClient {|
      storage.url := SplunkUrl config;
      storage.user := "";
      storage.password := "";
      storage.index := SplunkMetricsIndex config;
      storage.sourceType := SplunkMetricsSourceType config;
      storage.hecUrl := SplunkHECURL config;
      storage.hecToken := SplunkHECToken config;
      storage.timeout := clientTimeout;
      storage.logger := l;
    |} σ in
  let σ := Log l level.InfoValue
             [("msg", LogString "starting server...");
              ("listen", LogString (ListenAddr config))] σ in
  ({| logger := l; writeClient := writeClient |}, σ).

(** One request as the server receives it: the path the mux dispatches
    on, the request, and how the connection will treat the writes of the
    response. *)
Record Incoming := {
  path : string;
  request : http.Request;
  connection : list (option error);
}.

(** The default mux with the two patterns of [main].  [/metrics] belongs
    to [promhttp] and every other path to [http.NotFound]; neither
    touches the [World], and their responses are not modelled. *)
Definition ServeHTTP (srv : Server) (i : Incoming) (σ : World)
  : option http.ResponseWriter * World :=
  if String.eqb (path i) "/read" then
    let '(w, σ) := readHandler (logger srv)
                     (http.newResponse (connection i)) (request i) σ in
    (Some w, σ)
  else if String.eqb (path i) "/write" then
    let '(w, σ) := writeHandler (logger srv) (writeClient srv)
                     (http.newResponse (connection i)) (request i) σ in
    (Some w, σ)
  else (None, σ).

(** The requests of a run, served one after the other. *)
Fixpoint serve (srv : Server) (reqs : list Incoming) (σ : World)
  : list (option http.ResponseWriter) * World :=
  match reqs with
  | [] => ([], σ)
  | i :: reqs =>
      let '(w, σ) := ServeHTTP srv i σ in
      let '(ws, σ) := serve srv reqs σ in
      (w :: ws, σ)
  end.

(** The whole program on a list of requests. *)
Definition run (reqs : list Incoming) (σ : World)
  : list (option http.ResponseWriter) * World :=
  let '(srv, σ) := main σ in
  serve srv reqs σ.

End Gateway.

Arguments World {Ty St}.
Arguments Call {Ty St}.
Arguments Server {Ty St}.
Arguments Entry {Ty}.
Arguments LogValue {Ty}.

(** ** The wire codec, as the handlers compose it *)

(** Lines 87 to 99 (and 151 to 163) without the counter: decompress, then
    parse. *)
Definition decode {M} `{proto.Message M} `{snappy.Codec}
           (compressed : bytes) : result M :=
  match snappy.Decode compressed with
  | Err err => Err err
  | Ok reqBuf => proto.Unmarshal reqBuf
  end.

(** Lines 117 to 126: serialise, then compress. *)
Definition encode {M} `{proto.Message M} `{snappy.Codec}
           (m : M) : result bytes :=
  match proto.Marshal m with
  | Err err => Err err
  | Ok data => Ok (snappy.Encode data)
  end.

(** ** Vocabulary of the statements *)

Section Vocabulary.

Context `{Ty : prompb.Types} `{St : !storage.Backend} `{Sn : snappy.Codec}.

(** A call that reaches the remote store. *)
Definition is_backend_op (c : Call) : bool :=
  match c with
  | CallNewClient _ _ _ => false
  | CallRead _ _ | CallWrite _ _ => true
  end.

Definition is_construction (c : Call) : bool :=
  match c with
  | CallNewClient _ _ _ => true
  | _ => false
  end.

Definition is_read (c : Call) : bool :=
  match c with
  | CallRead _ _ => true
  | _ => false
  end.

(** The handle a write goes through, if the call is a write. *)
Definition write_handle (c : Call) : option storage.Client :=
  match c with
  | CallWrite h _ => Some h
  | _ => None
  end.

(** The call [c], if it is a write, goes through the handle [h]. *)
Definition through (h : storage.Client) (c : Call) : Prop :=
  match write_handle c with
  | Some h' => h' = h
  | None => True
  end.

(** The user name and password a request carries, empty when it carries
    none. *)
Definition callerCredentials (r : http.Request) : string * string :=
  match http.Credentials r with
  | Some up => up
  | None => (""%string, ""%string)
  end.

(** The call [c], if it is a construction, was given the user name and
    password [up]. *)
Definition constructed_with (up : string * string) (c : Call) : Prop :=
  match c with
  | CallNewClient a _ _ => (storage.user a, storage.password a) = up
  | _ => True
  end.

(** [w] is an error response: status [code] committed and [msg], with the
    newline of [Fprintln], handed to the connection as the one body
    write. *)
Definition refused (w : http.ResponseWriter) (code : Z) (msg : string)
  : Prop :=
  http.wroteHeader w = true ∧
  http.status w = code ∧
  ∃ o, http.written w = [(list_byte_of_string (msg +:+ http.newline), o)].

(** The failure classes of the error taxonomy and the status each one
    maps to. *)
Inductive FailureClass :=
| IOError | FramingError | ProtocolError | BackendError.

Definition statusOf (c : FailureClass) : Z :=
  match c with
  | IOError => 500
  | FramingError => 400
  | ProtocolError => 400
  | BackendError => 500
  end.

(** How many backend operations a failure class leaves behind. *)
Definition attempts (c : FailureClass) : nat :=
  match c with
  | BackendError => 1
  | _ => 0
  end.

(** The two endpoints; [/write] closes over the handle made by
    [main]. *)
Inductive Endpoint :=
| ReadEndpoint
| WriteEndpoint (h : storage.Client).

(** The law a serialiser is expected to obey at message type [M]. *)
Definition Unmarshal_Marshal (M : Type) `{proto.Message M} : Prop :=
  ∀ (m : M) (data : bytes),
    proto.Marshal m = Ok data → proto.Unmarshal data = Ok m.

Definition Decode_Encode : Prop :=
  ∀ b : bytes, snappy.Decode (snappy.Encode b) = Ok b.

Variable config : Config.

Definition handler (l : level.Logger) (ep : Endpoint)
  : http.ResponseWriter → http.Request → World →
    http.ResponseWriter * World :=
  match ep with
  | ReadEndpoint => readHandler config l
  | WriteEndpoint h => writeHandler l h
  end.

(** The arguments of the construction in the [/read] handler. *)
Definition readArgs (l : level.Logger) (r : http.Request)
  : storage.ClientArgs := {|
  storage.url := SplunkUrl config;
  storage.user := fst (fst (http.BasicAuth r));
  storage.password := snd (fst (http.BasicAuth r));
  storage.index := SplunkMetricsIndex config;
  storage.sourceType := SplunkMetricsSourceType config;
  storage.hecUrl := SplunkHECURL config;
  storage.hecToken := SplunkHECToken config;
  storage.timeout := clientTimeout config;
  storage.logger := l;
|}.

(** The handle the [/read] handler ends up with for [r]. *)
Definition readClient (l : level.Logger) (r : http.Request)
  : storage.Client :=
  fst (storage.NewClient (readArgs l r)).

(** The calls into [storage] a request gives rise to. *)
Definition readCalls (l : level.Logger) (r : http.Request) : list Call :=
  match ioutil_ReadAll (http.Body r) with
  | Err _ => []
  | Ok compressed =>
      match decode compressed with
      | Err _ => []
      | Ok req =>
          [CallNewClient (readArgs l r) (readClient l r)
             (snd (storage.NewClient (readArgs l r)));
           CallRead (readClient l r) req]
      end
  end.

Definition writeCalls (h : storage.Client) (r : http.Request)
  : list Call :=
  match ioutil_ReadAll (http.Body r) with
  | Err _ => []
  | Ok compressed =>
      match decode compressed with
      | Err _ => []
      | Ok req => [CallWrite h req]
      end
  end.

Definition requestCalls (srv : Server) (i : Incoming) : list Call :=
  if String.eqb (path i) "/read" then readCalls (logger srv) (request i)
  else if String.eqb (path i) "/write" then
    writeCalls (writeClient srv) (request i)
  else [].

(** The body of a request to [ep] does not decode. *)
Definition undecodable (ep : Endpoint) (compressed : bytes) : Prop :=
  match ep with
  | ReadEndpoint =>
      ∃ e, decode (M := prompb.ReadRequest) compressed = Err e
  | WriteEndpoint _ =>
      ∃ e, decode (M := prompb.WriteRequest) compressed = Err e
  end.

(** A request to [ep], handled with the logger [l], fails in class [c]
    with message [e]. *)
Inductive Fails (l : level.Logger) (r : http.Request) (σ : World)
  : Endpoint → FailureClass → error → Prop :=
| Fails_io ep e :
    ioutil_ReadAll (http.Body r) = Err e →
    Fails l r σ ep IOError e
| Fails_framing ep compressed e :
    ioutil_ReadAll (http.Body r) = Ok compressed →
    snappy.Decode compressed = Err e →
    Fails l r σ ep FramingError e
| Fails_protocol_read compressed reqBuf e :
    ioutil_ReadAll (http.Body r) = Ok compressed →
    snappy.Decode compressed = Ok reqBuf →
    proto.Unmarshal (M := prompb.ReadRequest) reqBuf = Err e →
    Fails l r σ ReadEndpoint ProtocolError e
| Fails_protocol_write h compressed reqBuf e :
    ioutil_ReadAll (http.Body r) = Ok compressed →
    snappy.Decode compressed = Ok reqBuf →
    proto.Unmarshal (M := prompb.WriteRequest) reqBuf = Err e →
    Fails l r σ (WriteEndpoint h) ProtocolError e
| Fails_backend_read compressed req e :
    ioutil_ReadAll (http.Body r) = Ok compressed →
    decode compressed = Ok req →
    fst (storage.Read (readClient l r) req (remote σ)) = Err e →
    Fails l r σ ReadEndpoint BackendError e
| Fails_backend_write h compressed req e :
    ioutil_ReadAll (http.Body r) = Ok compressed →
    decode compressed = Ok req →
    fst (storage.Write h req (remote σ)) = Some e →
    Fails l r σ (WriteEndpoint h) BackendError e.

End Vocabulary.

(** The request [r] sent with another method, and with other
    credentials. *)
Definition with_method (m : string) (r : http.Request) : http.Request := {|
  http.Method := m;
  http.Credentials := http.Credentials r;
  http.Body := http.Body r;
|}.

Definition with_credentials (c : option (string * string))
           (r : http.Request) : http.Request := {|
  http.Method := http.Method r;
  http.Credentials := c;
  http.Body := http.Body r;
|}.

(** A request whose body [b] arrives whole. *)
Definition received (m : string) (c : option (string * string)) (b : bytes)
  : http.Request := {|
  http.Method := m;
  http.Credentials := c;
  http.Body := {| http.content := b; http.failure := None |};
|}.

(** ** Vocabulary of a run *)

Section Accounting.

Context `{Ty : prompb.Types} `{St : !storage.Backend} `{Sn : snappy.Codec}.

(** The request is routed to the pattern [p], its body is read whole and
    decompresses. *)
Definition counted (p : string) (i : Incoming) : bool :=
  String.eqb (path i) p &&
  match ioutil_ReadAll (http.Body (request i)) with
  | Ok compressed => is_Ok (snappy.Decode compressed)
  | Err _ => false
  end.

(** The request is routed to one of the two handlers and its body
    decodes to the message that handler expects. *)
Definition forwarded (i : Incoming) : bool :=
  match ioutil_ReadAll (http.Body (request i)) with
  | Ok compressed =>
      String.eqb (path i) "/read" &&
        is_Ok (decode (M := prompb.ReadRequest) compressed)
      || String.eqb (path i) "/write" &&
           is_Ok (decode (M := prompb.WriteRequest) compressed)
  | Err _ => false
  end.

(** The [msg] field of the record a failure class is logged with, if it
    is logged at all. *)
Definition stage (c : FailureClass) : option string :=
  match c with
  | IOError => Some "Read error"%string
  | FramingError => Some "Decode error"%string
  | ProtocolError => Some "Unmarshal error"%string
  | BackendError => None
  end.

Definition failureLog (c : FailureClass) (e : error) : list Entry :=
  match stage c with
  | Some m =>
      [{| lvl := level.ErrorValue;
          keyvals := [("msg"%string, LogString m);
                      ("err"%string, LogString e)] |}]
  | None => []
  end.

Definition is_write (c : Call) : bool :=
  match c with
  | CallWrite _ _ => true
  | _ => false
  end.

(** [main] from its first line to its return: the requests served while
    [http.ListenAndServe] ran, and the error it came back with. *)
Definition mainToReturn (config : Config) (reqs : list Incoming)
           (err : option error) (σ : World)
  : list (option http.ResponseWriter) * World :=
  let '(ws, σ) := run config reqs σ in
  match err with
  | Some err =>
      (ws, Log (loadLogger config) level.ErrorValue
             [("action"%string, LogString "serve");
              ("err"%string, LogError err)] σ)
  | None => (ws, σ)
  end.

End Accounting.

(** The header sets a response can go out with. *)
Definition protobufHeaders : gmap string (list string) :=
  <["Content-Encoding"%string := ["snappy"%string]]>
    (<["Content-Type"%string := ["application/x-protobuf"%string]]> ∅).

Definition plainHeaders : gmap string (list string) :=
  <["X-Content-Type-Options"%string := ["nosniff"%string]]>
    (<["Content-Type"%string := ["text/plain; charset=utf-8"%string]]> ∅).

(** ** Test doubles

    A codec and a backend small enough to run.  Compression puts one zero
    byte in front; a serialised message is its payload behind the tag byte
    [0x0a].
    The backend keeps the batches it was sent, answers every read with one
    canned result, and its constructor wants a URL and a positive
    timeout. *)

Module Fake.

#[export] Instance snappy_Codec : snappy.Codec := {|
  snappy.Encode b := x00 :: b;
  snappy.Decode b :=
    match b with
    | x00 :: b => Ok b
    | _ => Err "snappy: corrupt input"
    end;
|}.

Definition parse (b : bytes) : result bytes :=
  match b with
  | x0a :: payload => Ok payload
  | _ => Err "proto: illegal tag"
  end.

Definition payload_Message : proto.Message bytes := {|
  proto.Marshal m := Ok (x0a :: m);
  proto.Unmarshal := parse;
|}.

#[export] Instance Types : prompb.Types := {|
  prompb.WriteRequest := bytes;
  prompb.ReadRequest := bytes;
  prompb.ReadResponse := bytes;
  prompb.WriteRequest_Message := payload_Message;
  prompb.ReadRequest_Message := payload_Message;
  prompb.ReadResponse_Message := payload_Message;
|}.

Record Store := {
  batches : list bytes;
  canned : result bytes;
  busy : bool;
}.

#[export] Instance Backend : storage.Backend := {|
  storage.Client := option storage.ClientArgs;
  storage.Remote := Store;
  storage.NewClient a :=
    if String.eqb (storage.url a) "" then
      (None, Some "storage: empty url"%string)
    else if (storage.timeout a <=? 0)%Z then
      (Some a, Some "storage: timeout must be positive"%string)
    else (Some a, None);
  storage.Read c q s := (canned s, s);
  storage.Write c b s :=
    if busy s then (Some "splunk: server is busy"%string, s)
    else (None, {| batches := batches s ++ [b];
                   canned := canned s; busy := busy s |});
|}.

Definition store (answer : result bytes) : Store :=
  {| batches := []; canned := answer; busy := false |}.

Definition busyStore : Store :=
  {| batches := []; canned := Ok []; busy := true |}.

Definition world (s : Store) : World := initialWorld (St := Backend) s.

Definition post (b : bytes) : http.Request := {|
  http.Method := "POST";
  http.Credentials := None;
  http.Body := {| http.content := b; http.failure := None |};
|}.

Definition aborted (e : error) : http.Request := {|
  http.Method := "POST";
  http.Credentials := None;
  http.Body := {| http.content := []; http.failure := Some e |};
|}.

(** A body that decodes to the payload [[x01]], one that decompresses
    but does not parse, and one that does not decompress. *)
Definition wellFormed : http.Request := post [x00; x0a; x01].
Definition unparsable : http.Request := post [x00; x01].
Definition uncompressed : http.Request := post [x01].

(** A request carrying Basic credentials. *)
Definition authenticated : http.Request := {|
  http.Method := "POST";
  http.Credentials := Some ("alice"%string, "s3cret"%string);
  http.Body := {| http.content := [x00; x0a; x01]; http.failure := None |};
|}.

(** The flag defaults with [-timeout 9223372037]. *)
Definition longTimeout : Config := {|
  SplunkUrl := "https://127.0.0.1:8089";
  SplunkMetricsIndex := "*";
  SplunkMetricsSourceType := "DaoCloud_promu_metrics";
  SplunkHECURL := "https://127.0.0.1:8088";
  SplunkHECToken := "";
  TimeoutSeconds := 9223372037;
  ListenAddr := "127.0.0.1:9970";
  LogFilePath := "/var/log";
  Debug := false;
|}.

(** A configuration with no backend URL. *)
Definition noUrl : Config := {|
  SplunkUrl := "";
  SplunkMetricsIndex := "*";
  SplunkMetricsSourceType := "DaoCloud_promu_metrics";
  SplunkHECURL := "https://127.0.0.1:8088";
  SplunkHECToken := "";
  TimeoutSeconds := 60;
  ListenAddr := "127.0.0.1:9970";
  LogFilePath := "/var/log";
  Debug := false;
|}.

End Fake.

(** * Properties *)

(** ** The response writer *)

Lemma WriteHeader_committed (w : http.ResponseWriter) (code : Z) :
  http.wroteHeader w = true → http.WriteHeader w code = w.
Proof.
  intros Hw. unfold http.WriteHeader. now rewrite Hw.
Qed.

(** A write on a response that has not started commits status 200 with
    the headers set so far. *)
Lemma Write_fresh (w : http.ResponseWriter) (data : bytes) :
  http.wroteHeader w = false →
  fst (http.Write w data) = {|
    http.header := http.header w;
    http.wroteHeader := true;
    http.status := 200;
    http.sent := http.header w;
    http.written := http.written w ++ [(data, http.next (http.conn w))];
    http.conn := tail (http.conn w);
  |} ∧ snd (http.Write w data) = http.next (http.conn w).
Proof.
  intros Hw. unfold http.Write, http.WriteHeader. rewrite Hw. simpl. auto.
Qed.

(** On a response that has not started, [http.Error] commits its code and
    writes the message once. *)
Lemma Error_fresh (c : list (option error)) (msg : string) (code : Z) :
  refused (http.Error (http.newResponse c) msg code) code msg.
Proof.
  unfold refused, http.Error. simpl. repeat split. eauto.
Qed.

(** On a response whose status went out, [http.Error] changes neither the
    status nor the headers the peer saw. *)
Lemma Error_committed (w : http.ResponseWriter) (msg : string) (code : Z) :
  http.wroteHeader w = true →
  http.wroteHeader (http.Error w msg code) = true ∧
  http.status (http.Error w msg code) = http.status w ∧
  http.sent (http.Error w msg code) = http.sent w.
Proof.
  intros Hw. destruct w; simpl in Hw; subst.
  unfold http.Error, http.Write, http.WriteHeader. simpl. auto.
Qed.

(** ** The logger *)

Lemma loadLogger_allows (config : Config) (v : level.Value) :
  v ≠ level.DebugValue → level.allowed (loadLogger config) v = true.
Proof.
  intros Hv. unfold loadLogger.
  destruct (Debug config); destruct v; simpl; congruence.
Qed.

(** ** The codec *)

Lemma decode_Ok {M} `{proto.Message M} `{snappy.Codec}
      (compressed : bytes) (m : M) :
  decode compressed = Ok m ↔
  ∃ reqBuf, snappy.Decode compressed = Ok reqBuf ∧
            proto.Unmarshal reqBuf = Ok m.
Proof.
  unfold decode. destruct (snappy.Decode compressed) as [reqBuf|e].
  - split; [eauto | now intros (b & [= <-] & Hb)].
  - split; [discriminate | now intros (b & Hb & _)].
Qed.

Lemma decode_Err {M} `{proto.Message M} `{snappy.Codec}
      (compressed : bytes) (e : error) :
  decode (M := M) compressed = Err e ↔
  snappy.Decode compressed = Err e ∨
  ∃ reqBuf, snappy.Decode compressed = Ok reqBuf ∧
            proto.Unmarshal (M := M) reqBuf = Err e.
Proof.
  unfold decode. destruct (snappy.Decode compressed) as [reqBuf|e'].
  - split.
    + intros Hu. right. now exists reqBuf.
    + intros [Hd | (b & [= <-] & Hb)]; [discriminate | assumption].
  - split.
    + intros [= ->]. now left.
    + intros [[= ->] | (b & Hb & _)]; [reflexivity | discriminate].
Qed.

(** A message that serialises comes back from its encoding, provided both
    layers undo themselves. *)
Lemma decode_encode {M} `{proto.Message M} `{snappy.Codec}
      (m : M) (wire : bytes) :
  Decode_Encode → Unmarshal_Marshal M →
  encode m = Ok wire → decode wire = Ok m.
Proof.
  intros Hsnappy Hproto. unfold encode, decode.
  destruct (proto.Marshal m) as [data|e] eqn:Hm; [|discriminate].
  intros [= <-]. rewrite Hsnappy. now apply Hproto.
Qed.

(** ** The state the handlers thread *)

Section Frames.

Context `{Ty : prompb.Types} `{St : !storage.Backend} `{Sn : snappy.Codec}.

Implicit Types (σ : World) (l : level.Logger) (w : http.ResponseWriter).
Implicit Types (r : http.Request) (h : storage.Client) (config : Config).

(** Logging touches the log and nothing else. *)
Lemma Log_frame l v kv σ :
  ReadRequestCounter (Log l v kv σ) = ReadRequestCounter σ ∧
  WriteRequestCounter (Log l v kv σ) = WriteRequestCounter σ ∧
  calls (Log l v kv σ) = calls σ ∧
  remote (Log l v kv σ) = remote σ.
Proof.
  unfold Log. destruct (level.allowed l v); simpl; auto.
Qed.

Lemma Log_allowed l v kv σ :
  level.allowed l v = true →
  logged (Log l v kv σ) = logged σ ++ [{| lvl := v; keyvals := kv |}].
Proof.
  intros Ha. unfold Log. now rewrite Ha.
Qed.

End Frames.

#[local] Ltac frame_log :=
  repeat match goal with
  | |- context [Log ?l ?v ?kv ?s] =>
      let H := fresh "HLog" in
      pose proof (Log_frame l v kv s) as H;
      destruct H as (? & ? & ? & ?);
      generalize dependent (Log l v kv s); intros
  end.

#[local] Arguments http.Write : simpl never.
#[local] Arguments http.Error : simpl never.
#[local] Arguments http.WriteHeader : simpl never.
#[local] Arguments http.Header_Set : simpl never.

(** ** What reaches package storage *)

Section Traces.

Context `{Ty : prompb.Types} `{St : !storage.Backend} `{Sn : snappy.Codec}.

Implicit Types (σ : World) (l : level.Logger) (w : http.ResponseWriter).
Implicit Types (r : http.Request) (h : storage.Client) (config : Config).

Lemma readHandler_calls config l w r σ :
  calls (snd (readHandler config l w r σ)) = calls σ ++ readCalls config l r.
Proof.
  unfold readHandler, readCalls, readClient, readArgs, decode.
  unfold storage_NewClient, Client_Read.
  destruct (http.BasicAuth r) as [[user pass] ok]; simpl.
  repeat case_match; simplify_eq; frame_log; simpl in *;
    rewrite ?app_nil_r, <- ?app_assoc in *; simpl in *; congruence.
Qed.

Lemma writeHandler_calls l h w r σ :
  calls (snd (writeHandler l h w r σ)) = calls σ ++ writeCalls h r.
Proof.
  unfold writeHandler, writeCalls, decode, Client_Write.
  repeat case_match; simplify_eq; frame_log; simpl in *;
    rewrite ?app_nil_r; congruence.
Qed.

Lemma ServeHTTP_calls config srv i σ :
  calls (snd (ServeHTTP config srv i σ)) = calls σ ++ requestCalls config srv i.
Proof.
  unfold ServeHTTP, requestCalls.
  destruct (String.eqb (path i) "/read").
  - pose proof (readHandler_calls config (logger srv)
                  (http.newResponse (connection i)) (request i) σ) as Hc.
    now destruct (readHandler _ _ _ _ _).
  - destruct (String.eqb (path i) "/write").
    + pose proof (writeHandler_calls (logger srv) (writeClient srv)
                    (http.newResponse (connection i)) (request i) σ) as Hc.
      now destruct (writeHandler _ _ _ _ _).
    + simpl. now rewrite app_nil_r.
Qed.

Lemma serve_calls config srv reqs σ :
  calls (snd (serve config srv reqs σ))
  = calls σ ++ flat_map (requestCalls config srv) reqs.
Proof.
  revert σ. induction reqs as [|i reqs IH]; intros σ; simpl.
  - now rewrite app_nil_r.
  - pose proof (ServeHTTP_calls config srv i σ) as Hi.
    destruct (ServeHTTP config srv i σ) as [wi σi]. simpl in Hi.
    specialize (IH σi). destruct (serve config srv reqs σi) as [ws σs].
    simpl in *. now rewrite IH, Hi, app_assoc.
Qed.

End Traces.

(** ** Start-up *)

(** Below 2^63 nanoseconds the product in [clientTimeout] is exact. *)
Lemma clientTimeout_exact (config : Config) :
  (-9223372036 ≤ TimeoutSeconds config ≤ 9223372036)%Z →
  clientTimeout config = (TimeoutSeconds config * 1000000000)%Z.
Proof.
  intros Ht. unfold clientTimeout, time.mul, time.of_int, time.wrap64.
  unfold time.Second.
  change (2 ^ 63)%Z with 9223372036854775808%Z.
  change (2 ^ 64)%Z with 18446744073709551616%Z.
  rewrite (Z.mod_small (TimeoutSeconds config + _)) by lia.
  rewrite Z.mod_small by lia. lia.
Qed.

Section Shapes.

Context `{Ty : prompb.Types} `{St : !storage.Backend} `{Sn : snappy.Codec}.

(** A request adds writes through the server's handle only, and as many
    constructions as reads. *)
Lemma requestCalls_shape (config : Config) (srv : Server) (i : Incoming) :
  Forall (through (writeClient srv)) (requestCalls config srv i) ∧
  length (List.filter is_construction (requestCalls config srv i))
  = length (List.filter is_read (requestCalls config srv i)).
Proof.
  unfold requestCalls, readCalls, writeCalls.
  repeat case_match; simpl; split; repeat constructor.
Qed.

End Shapes.

(** ** The body of a successful read *)

Section Answers.

Context `{Ty : prompb.Types} `{St : !storage.Backend} `{Sn : snappy.Codec}.

Lemma readHandler_body (config : Config) (l : level.Logger)
      (c : list (option error)) (r : http.Request) (σ : World)
      (compressed data : bytes)
      (req : prompb.ReadRequest) (resp : prompb.ReadResponse) :
  ioutil_ReadAll (http.Body r) = Ok compressed →
  decode compressed = Ok req →
  fst (storage.Read (readClient config l r) req (remote σ)) = Ok resp →
  proto.Marshal resp = Ok data →
  http.next c = None →
  http.body (fst (readHandler config l (http.newResponse c) r σ))
  = snappy.Encode data.
Proof.
  intros Hb Hd Hr Hm Hc. apply decode_Ok in Hd as (reqBuf & Hd & Hu).
  unfold readHandler, readClient, readArgs in *.
  rewrite Hb, Hd, Hu.
  destruct (http.BasicAuth r) as [[user pass] ok]. simpl in *.
  unfold storage_NewClient, Client_Read.
  destruct (storage.NewClient _) as [handle cerr]. simpl in *.
  destruct (storage.Read _ _ _) as [res rem]. simpl in *. subst res.
  rewrite Hm. simpl. rewrite Hc. simpl.
  unfold http.body. simpl. now rewrite app_nil_r.
Qed.

End Answers.

(** ** The claims *)

Section Claims.

Context `{Ty : prompb.Types} `{St : !storage.Backend} `{Sn : snappy.Codec}.

Implicit Types (σ : World) (l : level.Logger) (w : http.ResponseWriter).
Implicit Types (r : http.Request) (h : storage.Client) (config : Config).
Implicit Types (ep : Endpoint) (c : list (option error)).

(** C1, as amended.  Once the body has been read, each handler adds one
    to its own counter exactly when the body decompresses, and nothing
    otherwise; whether the decompressed bytes then parse and whether the
    backend call then succeeds plays no part. *)
Theorem request_counter_counts_decompressed
        config l h w r σ (compressed : bytes) :
  ioutil_ReadAll (http.Body r) = Ok compressed →
  ReadRequestCounter (snd (readHandler config l w r σ))
  = (ReadRequestCounter σ
     + if is_Ok (snappy.Decode compressed) then 1 else 0)%Z
  ∧ WriteRequestCounter (snd (writeHandler l h w r σ))
  = (WriteRequestCounter σ
     + if is_Ok (snappy.Decode compressed) then 1 else 0)%Z.
Proof.
  intros Hbody. unfold readHandler, writeHandler. rewrite Hbody.
  unfold storage_NewClient, Client_Read, Client_Write.
  split; repeat case_match; simplify_eq; frame_log; simpl in *;
    first [lia | congruence].
Qed.

(** C3.  When the body of a request to either endpoint has been read but
    does not decode, be it the decompression or the parsing that fails,
    the handler makes no call into the storage package and leaves the
    remote store as it was. *)
Theorem no_backend_call_when_decoding_fails
        config l ep w r σ (compressed : bytes) :
  ioutil_ReadAll (http.Body r) = Ok compressed →
  undecodable ep compressed →
  calls (snd (handler config l ep w r σ)) = calls σ ∧
  remote (snd (handler config l ep w r σ)) = remote σ.
Proof.
  intros Hbody Hun. destruct ep as [|h]; destruct Hun as [e He];
    apply decode_Err in He; unfold handler.
  - unfold readHandler. rewrite Hbody.
    destruct He as [He | (reqBuf & Hd & Hu)].
    + rewrite He. simpl. frame_log. auto.
    + rewrite Hd, Hu. simpl. frame_log. simpl in *. auto.
  - unfold writeHandler. rewrite Hbody.
    destruct He as [He | (reqBuf & Hd & Hu)].
    + rewrite He. simpl. frame_log. auto.
    + rewrite Hd, Hu. simpl. frame_log. simpl in *. auto.
Qed.

(** C5.  A request that fails is answered by the class of its failure:
    500 when the body cannot be read, 400 when it does not decompress or
    does not parse, 500 when the backend call fails; the response body is
    the error's message (with the newline [http.Error] adds); and the
    backend has been called once when it is the backend that failed and
    not at all otherwise, so nothing is tried again. *)
Theorem failure_status_by_class config l ep c r σ cls (e : error) :
  Fails config l r σ ep cls e →
  refused (fst (handler config l ep (http.newResponse c) r σ))
          (statusOf cls) e ∧
  ∃ new,
    calls (snd (handler config l ep (http.newResponse c) r σ))
    = calls σ ++ new ∧
    length (List.filter is_backend_op new) = attempts cls.
Proof.
  intros Hf. split.
  - destruct Hf as [ep e Hb | ep compressed e Hb Hd
                   | compressed reqBuf e Hb Hd Hu
                   | h compressed reqBuf e Hb Hd Hu
                   | compressed req e Hb Hd Hr
                   | h compressed req e Hb Hd Hw];
      try apply decode_Ok in Hd as (reqBuf & Hd & Hu);
      try destruct ep as [|h]; unfold handler, readHandler, writeHandler;
      rewrite Hb; try rewrite Hd; try rewrite Hu; simpl;
      try apply Error_fresh.
    + unfold readClient, readArgs in Hr.
      destruct (http.BasicAuth r) as [[user pass] ok]. simpl in Hr.
      unfold storage_NewClient, Client_Read.
      destruct (storage.NewClient _) as [handle cerr]. simpl in *.
      destruct (storage.Read _ _ _) as [res rem]. simpl in *. subst res.
      apply Error_fresh.
    + unfold Client_Write.
      destruct (storage.Write _ _ _) as [werr rem]. simpl in *. subst werr.
      apply Error_fresh.
  - destruct ep as [|h]; unfold handler.
    + exists (readCalls config l r). split; [apply readHandler_calls|].
      unfold readCalls.
      inversion Hf as [ep e' Hb | ep compressed e' Hb Hd
                      | compressed reqBuf e' Hb Hd Hu
                      | | compressed req e' Hb Hd Hr | ]; subst;
        rewrite Hb; try reflexivity.
      * assert (decode (M := prompb.ReadRequest) compressed = Err e)
          as -> by (apply decode_Err; eauto). reflexivity.
      * assert (decode (M := prompb.ReadRequest) compressed = Err e)
          as -> by (apply decode_Err; eauto). reflexivity.
      * rewrite Hd. reflexivity.
    + exists (writeCalls h r). split; [apply writeHandler_calls|].
      unfold writeCalls.
      inversion Hf as [ep e' Hb | ep compressed e' Hb Hd
                      | | h' compressed reqBuf e' Hb Hd Hu
                      | | h' compressed req e' Hb Hd Hr]; subst;
        rewrite Hb; try reflexivity.
      * assert (decode (M := prompb.WriteRequest) compressed = Err e)
          as -> by (apply decode_Err; eauto). reflexivity.
      * assert (decode (M := prompb.WriteRequest) compressed = Err e)
          as -> by (apply decode_Err; eauto). reflexivity.
      * rewrite Hd. reflexivity.
Qed.

(** C10.  Neither handler, nor the mux in front of them, looks at the
    method: the same request sent with any other method is handled with
    the same response and the same effects. *)
Theorem method_is_never_inspected
        config l ep (srv : Server) w r σ (m : string) (i : Incoming) :
  handler config l ep w (with_method m r) σ = handler config l ep w r σ ∧
  ServeHTTP config srv
    {| path := path i;
       request := with_method m (request i);
       connection := connection i |} σ
  = ServeHTTP config srv i σ.
Proof.
  split.
  - destruct ep; reflexivity.
  - reflexivity.
Qed.

(** C2, as amended.  When a [/read] request decodes, the handler
    constructs a client and, without looking at the error of the
    construction, calls read once on whatever handle came back.  The
    response depends on that call alone: 500 with the message when read
    fails or its result does not serialise, status 200 otherwise. *)
Theorem read_proceeds_whatever_construction_returned
        config l c r σ (compressed : bytes) (req : prompb.ReadRequest) :
  ioutil_ReadAll (http.Body r) = Ok compressed →
  decode compressed = Ok req →
  let a := readArgs config l r in
  let handle := fst (storage.NewClient a) in
  let w' := fst (readHandler config l (http.newResponse c) r σ) in
  let σ' := snd (readHandler config l (http.newResponse c) r σ) in
  calls σ' = calls σ ++ [CallNewClient a handle (snd (storage.NewClient a));
                         CallRead handle req] ∧
  match fst (storage.Read handle req (remote σ)) with
  | Err e => refused w' 500 e
  | Ok resp =>
      match proto.Marshal resp with
      | Err e => refused w' 500 e
      | Ok _ => http.wroteHeader w' = true ∧ http.status w' = 200%Z
      end
  end.
Proof.
  intros Hb Hd a handle. split.
  - rewrite readHandler_calls. unfold readCalls. now rewrite Hb, Hd.
  - apply decode_Ok in Hd as (reqBuf & Hd & Hu).
    subst a handle. unfold readHandler, readArgs.
    rewrite Hb, Hd, Hu.
    destruct (http.BasicAuth r) as [[user pass] ok]. simpl.
    unfold storage_NewClient, Client_Read.
    destruct (storage.NewClient _) as [handle cerr]. simpl.
    destruct (storage.Read _ _ _) as [[resp|e] rem]; simpl;
      [|apply Error_fresh].
    destruct (proto.Marshal resp) as [data|e]; simpl; [|apply Error_fresh].
    destruct (http.next c) as [err|]; simpl; split; reflexivity.
Qed.

(** C4.  Every client a [/read] request constructs is given the user name
    and password of the request's Basic credentials, or two empty strings
    when it carries none; a request that decodes constructs exactly one.
    The [/write] handler, and the mux in front of it, answer a request the
    same way whatever credentials it carries, and the handle they write
    through was constructed by [main] with the fixed, empty, user name and
    password. *)
Theorem credential_passthrough_asymmetry
        config l h (srv : Server) w w' c r r' σ σ' σ0
        (creds : option (string * string)) :
  (∃ new,
      calls (snd (readHandler config l w r σ)) = calls σ ++ new ∧
      Forall (constructed_with (callerCredentials r)) new ∧
      ∀ (compressed : bytes) (req : prompb.ReadRequest),
        ioutil_ReadAll (http.Body r) = Ok compressed →
        decode compressed = Ok req →
        ∃ a handle cerr,
          new = [CallNewClient a handle cerr; CallRead handle req]) ∧
  writeHandler l h w' (with_credentials creds r') σ'
  = writeHandler l h w' r' σ' ∧
  ServeHTTP config srv
    {| path := "/write"; request := with_credentials creds r';
       connection := c |} σ'
  = ServeHTTP config srv
      {| path := "/write"; request := r'; connection := c |} σ' ∧
  (∃ a cerr,
      calls (snd (main config σ0))
      = calls σ0 ++ [CallNewClient a (writeClient (fst (main config σ0)))
                       cerr] ∧
      storage.user a = ""%string ∧ storage.password a = ""%string).
Proof.
  split; [|split; [reflexivity | split; [reflexivity|]]].
  - exists (readCalls config l r). split; [apply readHandler_calls|]. split.
    + unfold readCalls, readArgs, callerCredentials, http.BasicAuth.
      repeat case_match; repeat constructor.
    + intros compressed req Hb Hd. unfold readCalls. rewrite Hb, Hd. eauto.
  - unfold main, storage_NewClient.
    destruct (storage.NewClient _) as [wc cerr] eqn:Hn. simpl.
    frame_log. simpl in *. eexists _, cerr. split; [eassumption|].
    split; reflexivity.
Qed.


(** C8.  When a [/write] request decodes and the backend write succeeds,
    status 200 is sent and the two bytes [ok] are written as the body.
    If the connection refuses that write the error is logged at error
    level, and the status stays 200. *)
Theorem write_success_acknowledged
        config h c r σ (compressed : bytes) (req : prompb.WriteRequest) :
  ioutil_ReadAll (http.Body r) = Ok compressed →
  decode compressed = Ok req →
  fst (storage.Write h req (remote σ)) = None →
  let w' := fst (writeHandler (loadLogger config) h
                   (http.newResponse c) r σ) in
  let σ' := snd (writeHandler (loadLogger config) h
                   (http.newResponse c) r σ) in
  http.wroteHeader w' = true ∧
  http.status w' = 200%Z ∧
  http.written w' = [(list_byte_of_string "ok", http.next c)] ∧
  match http.next c with
  | None =>
      http.body w' = list_byte_of_string "ok" ∧ logged σ' = logged σ
  | Some err =>
      logged σ' = logged σ ++
        [{| lvl := level.ErrorValue;
            keyvals := [("action"%string, LogString "write");
                        ("err"%string, LogError err)] |}]
  end.
Proof.
  intros Hb Hd Hw. apply decode_Ok in Hd as (reqBuf & Hd & Hu).
  unfold writeHandler. rewrite Hb, Hd, Hu. unfold Client_Write.
  destruct (storage.Write _ _ _) as [werr rem]. simpl in *. subst werr.
  unfold http.Write, http.WriteHeader. simpl.
  destruct (http.next c) as [err|] eqn:Hc; simpl.
  - repeat split. rewrite Log_allowed; [reflexivity|].
    now apply loadLogger_allows.
  - repeat split.
Qed.

(** C9, as amended.  [main] constructs the write client once, before any
    request is served, with an empty user name, an empty password and the timeout
    [time.Second*time.Duration(config.TimeoutSeconds)], which is the
    configured number of seconds as long as the product fits an int64.
    The error of that construction is dropped without a log record.
    Every write of the run goes through that one handle, and each later
    construction is the one a [/read] request makes for its own read. *)
Theorem write_client_built_once_at_start config (reqs : list Incoming) σ :
  let srv := fst (main config σ) in
  let σ1 := snd (main config σ) in
  let σ2 := snd (serve config srv reqs σ1) in
  ∃ a new,
    storage.user a = ""%string ∧
    storage.password a = ""%string ∧
    storage.timeout a
    = time.mul time.Second (time.of_int (TimeoutSeconds config)) ∧
    ((-9223372036 ≤ TimeoutSeconds config ≤ 9223372036)%Z →
     storage.timeout a = (TimeoutSeconds config * 1000000000)%Z) ∧
    writeClient srv = fst (storage.NewClient a) ∧
    calls σ1 = calls σ ++ [CallNewClient a (writeClient srv)
                             (snd (storage.NewClient a))] ∧
    logged σ1 = logged σ ++
      [{| lvl := level.InfoValue;
          keyvals := [("msg"%string, LogString "starting server...");
                      ("listen"%string, LogString (ListenAddr config))] |}] ∧
    calls σ2 = calls σ1 ++ new ∧
    Forall (through (writeClient srv)) new ∧
    length (List.filter is_construction new)
    = length (List.filter is_read new).
Proof.
  intros srv σ1 σ2.
  exists {| storage.url := SplunkUrl config;
            storage.user := "";
            storage.password := "";
            storage.index := SplunkMetricsIndex config;
            storage.sourceType := SplunkMetricsSourceType config;
            storage.hecUrl := SplunkHECURL config;
            storage.hecToken := SplunkHECToken config;
            storage.timeout := clientTimeout config;
            storage.logger := loadLogger config |},
    (flat_map (requestCalls config srv) reqs).
  repeat split; simpl.
  - apply clientTimeout_exact.
  - subst srv. unfold main, storage_NewClient.
    destruct (storage.NewClient _) as [wc cerr]. reflexivity.
  - subst σ1 srv. unfold main, storage_NewClient.
    destruct (storage.NewClient _) as [wc cerr]. simpl.
    frame_log. simpl in *. assumption.
  - subst σ1. unfold main, storage_NewClient.
    destruct (storage.NewClient _) as [wc cerr]. simpl.
    rewrite Log_allowed; [reflexivity|]. now apply loadLogger_allows.
  - apply serve_calls.
  - apply Forall_flat_map, Forall_forall. intros i _.
    apply requestCalls_shape.
  - induction reqs as [|i reqs IH]; simpl; [reflexivity|].
    rewrite !List.filter_app, !length_app, IH.
    f_equal. apply requestCalls_shape.
Qed.

End Claims.

(** ** The round trip *)

Section RoundTrip.

Context `{Ty : prompb.Types} `{St : !storage.Backend} `{Sn : snappy.Codec}.

(** Modelled from the spec: the compressor and the serialiser are
    libraries outside the repository, and section 4.1 states their
    contract.  It is taken layer by layer: decompression undoes
    compression, and parsing undoes a serialisation that succeeded, at
    each of the three message types. *)
Hypothesis snappy_inverse : Decode_Encode.
Hypothesis WriteRequest_inverse : Unmarshal_Marshal prompb.WriteRequest.
Hypothesis ReadRequest_inverse : Unmarshal_Marshal prompb.ReadRequest.
Hypothesis ReadResponse_inverse : Unmarshal_Marshal prompb.ReadResponse.

(** C6.  With [encode] serialisation followed by compression and
    [decode] decompression followed by parsing, a batch, a query and a
    result that encode decode to themselves.  Through the gateway: the
    batch a client encodes is the one handed to the backend write, and
    the body answered to a read is the encoding of the backend's result,
    which the client therefore decodes to that result. *)
Theorem decode_encode_roundtrip
        (batch : prompb.WriteRequest) (query : prompb.ReadRequest)
        (result : prompb.ReadResponse) (wb wq wr : bytes) :
  encode batch = Ok wb →
  encode query = Ok wq →
  encode result = Ok wr →
  decode wb = Ok batch ∧
  decode wq = Ok query ∧
  decode wr = Ok result ∧
  (∀ l h w σ m creds,
      calls (snd (writeHandler l h w (received m creds wb) σ))
      = calls σ ++ [CallWrite h batch]) ∧
  (∀ config l c σ m creds,
      fst (storage.Read (readClient config l (received m creds wq)) query
             (remote σ)) = Ok result →
      http.next c = None →
      http.body (fst (readHandler config l (http.newResponse c)
                        (received m creds wq) σ)) = wr).
Proof.
  intros Hwb Hwq Hwr.
  assert (decode wb = Ok batch) as Hb by now apply decode_encode.
  assert (decode wq = Ok query) as Hq by now apply decode_encode.
  assert (decode wr = Ok result) as Hr by now apply decode_encode.
  repeat split; try assumption.
  - intros l h w σ m creds. rewrite writeHandler_calls.
    unfold writeCalls. simpl. now rewrite Hb.
  - intros config l c σ m creds Hread Hc.
    unfold encode in Hwr.
    destruct (proto.Marshal result) as [data|e] eqn:Hm; [|discriminate].
    injection Hwr as <-.
    now apply (readHandler_body config l c _ σ wq data query result).
Qed.

End RoundTrip.

(** * Further properties of the handlers *)

#[local] Ltac wrong_status :=
  let Hs := fresh "Hs" in
  intros Hs;
  unfold http.Error, http.Write, http.WriteHeader, http.Header_Set in Hs;
  simpl in Hs; discriminate Hs.

Section Replies.

Context `{Ty : prompb.Types} `{St : !storage.Backend} `{Sn : snappy.Codec}.

Implicit Types (σ : World) (l : level.Logger) (w : http.ResponseWriter).
Implicit Types (r : http.Request) (h : storage.Client) (config : Config).
Implicit Types (ep : Endpoint) (c : list (option error)).

(** X1.  Whatever the request, and whatever the codec and the backend
    return (a read that reports no error returning a response, not a nil
    pointer), a handler given a response that has not started commits a
    status, which is 200, 400 or 500, and writes to the body once, or
    twice when the reply to a read could not be written. *)
Theorem handlers_always_answer config l ep c r σ :
  let w' := fst (handler config l ep (http.newResponse c) r σ) in
  http.wroteHeader w' = true ∧
  (http.status w' = 200 ∨ http.status w' = 400 ∨ http.status w' = 500)%Z ∧
  1 ≤ length (http.written w') ≤ 2.
Proof.
  destruct ep as [|h]; unfold handler, readHandler, writeHandler;
    unfold storage_NewClient, Client_Read, Client_Write;
    repeat case_match; simplify_eq;
    unfold http.Error, http.Write, http.WriteHeader, http.Header_Set in *;
    simpl in *; simplify_eq; simpl; auto 10 with lia.
Qed.

(** X2.  The headers a [/read] reply goes out with tell its format: with
    status 200 they are the protobuf content type and the snappy content
    encoding, with 400 or 500 they are those of [http.Error], plain text
    and no content encoding. *)
Theorem read_reply_format_matches_status config l c r σ :
  let w' := fst (readHandler config l (http.newResponse c) r σ) in
  (http.status w' = 200%Z ∧ http.sent w' = protobufHeaders) ∨
  ((http.status w' = 400 ∨ http.status w' = 500)%Z ∧
   http.sent w' = plainHeaders).
Proof.
  unfold readHandler, storage_NewClient, Client_Read.
  repeat case_match; simplify_eq;
    unfold http.Error, http.Write, http.WriteHeader, http.Header_Set in *;
    simpl in *; simplify_eq; simpl; auto.
Qed.

(** X3.  [/write] answers 200 only for a batch the backend has accepted:
    the body was read and decoded, the one call into the backend is the
    write of that batch through the handler's handle, and it returned no
    error. *)
Theorem write_acknowledged_only_when_stored l h c r σ :
  http.status (fst (writeHandler l h (http.newResponse c) r σ)) = 200%Z →
  ∃ (compressed : bytes) (req : prompb.WriteRequest),
    ioutil_ReadAll (http.Body r) = Ok compressed ∧
    decode compressed = Ok req ∧
    storage.Write h req (remote σ)
    = (None, remote (snd (writeHandler l h (http.newResponse c) r σ))) ∧
    calls (snd (writeHandler l h (http.newResponse c) r σ))
    = calls σ ++ [CallWrite h req].
Proof.
  unfold writeHandler, decode, Client_Write.
  destruct (ioutil_ReadAll (http.Body r)) as [compressed|e] eqn:Hb;
    [|wrong_status].
  destruct (snappy.Decode compressed) as [reqBuf|e] eqn:Hd;
    [|wrong_status].
  destruct (proto.Unmarshal reqBuf) as [req|e] eqn:Hu;
    [|wrong_status].
  change (remote (WriteRequestCounter_Add 1 σ)) with (remote σ).
  destruct (storage.Write h req (remote σ)) as [[e|] rem] eqn:Hw;
    [wrong_status|].
  intros _. exists compressed, req.
  split; [reflexivity|]. split; [now rewrite Hd|].
  unfold http.Write, http.WriteHeader. simpl.
  rewrite Hw.
  destruct (http.next c); simpl; [|split; reflexivity].
  frame_log. simpl in *. split; congruence.
Qed.

(** X4.  [/read] answers 200 only with a result of the backend: the body
    was read and decoded, the read on the request's own client returned a
    result, the result serialised, and its compression is the first thing
    written. *)
Theorem read_answers_200_only_with_a_result config l c r σ :
  http.status (fst (readHandler config l (http.newResponse c) r σ)) = 200%Z →
  ∃ (compressed data : bytes) (req : prompb.ReadRequest)
    (resp : prompb.ReadResponse),
    ioutil_ReadAll (http.Body r) = Ok compressed ∧
    decode compressed = Ok req ∧
    fst (storage.Read (readClient config l r) req (remote σ)) = Ok resp ∧
    proto.Marshal resp = Ok data ∧
    ∃ rest,
      http.written (fst (readHandler config l (http.newResponse c) r σ))
      = (snappy.Encode data, http.next c) :: rest.
Proof.
  unfold readHandler, readClient, readArgs, decode.
  unfold storage_NewClient, Client_Read.
  destruct (ioutil_ReadAll (http.Body r)) as [compressed|e] eqn:Hb;
    [|wrong_status].
  destruct (snappy.Decode compressed) as [reqBuf|e] eqn:Hd;
    [|wrong_status].
  destruct (proto.Unmarshal reqBuf) as [req|e] eqn:Hu;
    [|wrong_status].
  destruct (http.BasicAuth r) as [[user pass] ok]. simpl.
  destruct (storage.NewClient _) as [handle cerr]. simpl.
  destruct (storage.Read handle req (remote σ)) as [[resp|e] rem] eqn:Hr;
    [|wrong_status].
  destruct (proto.Marshal resp) as [data|e] eqn:Hm;
    [|wrong_status].
  intros _. exists compressed, data, req, resp.
  split; [reflexivity|]. split; [now rewrite Hd|].
  split; [now rewrite Hr|]. split; [assumption|].
  unfold http.Write, http.WriteHeader, http.Error, http.Header_Set. simpl.
  destruct (http.next c); simpl; eauto.
Qed.

End Replies.

(** ** Logging *)

Section Logging.

Context `{Ty : prompb.Types} `{St : !storage.Backend} `{Sn : snappy.Codec}.

Implicit Types (σ : World) (l : level.Logger) (w : http.ResponseWriter).
Implicit Types (r : http.Request) (h : storage.Client) (config : Config).
Implicit Types (ep : Endpoint) (c : list (option error)).

(** X5.  A request that cannot be read, decompressed or parsed leaves one
    error-level record naming the stage and the message; a request that
    fails in the backend is answered but leaves no record at all. *)
Theorem failures_logged_by_stage config ep c r σ cls (e : error) :
  Fails config (loadLogger config) r σ ep cls e →
  logged (snd (handler config (loadLogger config) ep
                 (http.newResponse c) r σ))
  = logged σ ++ failureLog cls e.
Proof.
  pose proof (loadLogger_allows config level.ErrorValue) as Hallow.
  intros Hf.
  destruct Hf as [ep e Hb | ep compressed e Hb Hd
                 | compressed reqBuf e Hb Hd Hu
                 | h compressed reqBuf e Hb Hd Hu
                 | compressed req e Hb Hd Hr
                 | h compressed req e Hb Hd Hw];
    try apply decode_Ok in Hd as (reqBuf & Hd & Hu);
    try destruct ep as [|h]; unfold handler, readHandler, writeHandler;
    rewrite Hb; try rewrite Hd; try rewrite Hu; simpl;
    try (rewrite Log_allowed by (apply Hallow; discriminate); reflexivity).
  - unfold readClient, readArgs in Hr.
    destruct (http.BasicAuth r) as [[user pass] ok]. simpl in Hr.
    unfold storage_NewClient, Client_Read.
    destruct (storage.NewClient _) as [handle cerr]. simpl in *.
    destruct (storage.Read _ _ _) as [res rem]. simpl in *. subst res.
    simpl. now rewrite app_nil_r.
  - unfold Client_Write.
    destruct (storage.Write _ _ _) as [werr rem]. simpl in *. subst werr.
    simpl. now rewrite app_nil_r.
Qed.

(** X6.  When the reply to a successful read cannot be written, the 200
    and the protobuf headers already sent stand, the handler logs one
    warn-level record with the query and the error, and [http.Error] then
    writes the error text as a second piece of body. *)
Theorem read_reply_write_failure
        config c r σ (compressed data : bytes)
        (req : prompb.ReadRequest) (resp : prompb.ReadResponse)
        (err : error) :
  ioutil_ReadAll (http.Body r) = Ok compressed →
  decode compressed = Ok req →
  fst (storage.Read (readClient config (loadLogger config) r) req
         (remote σ)) = Ok resp →
  proto.Marshal resp = Ok data →
  http.next c = Some err →
  let out := readHandler config (loadLogger config)
               (http.newResponse c) r σ in
  http.status (fst out) = 200%Z ∧
  http.sent (fst out) = protobufHeaders ∧
  http.written (fst out)
  = [(snappy.Encode data, Some err);
     (list_byte_of_string (err +:+ http.newline), http.next (tail c))] ∧
  http.body (fst out)
  = match http.next (tail c) with
    | None => list_byte_of_string (err +:+ http.newline)
    | Some _ => []
    end ∧
  logged (snd out)
  = logged σ ++
    [{| lvl := level.WarnValue;
        keyvals := [("msg"%string, LogString "Error executing query");
                    ("query"%string, LogQuery req);
                    ("err"%string, LogError err)] |}].
Proof.
  intros Hb Hd Hr Hm Hc. apply decode_Ok in Hd as (reqBuf & Hd & Hu).
  unfold readHandler, readClient, readArgs in *.
  rewrite Hb, Hd, Hu.
  destruct (http.BasicAuth r) as [[user pass] ok]. simpl in *.
  unfold storage_NewClient, Client_Read.
  destruct (storage.NewClient _) as [handle cerr]. simpl in *.
  destruct (storage.Read _ _ _) as [res rem]. simpl in *. subst res.
  rewrite Hm. simpl. rewrite Hc. simpl.
  split; [reflexivity|]. split; [reflexivity|]. split; [reflexivity|].
  split.
  - unfold http.body. simpl. destruct (http.next (tail c)); simpl;
      now rewrite ?app_nil_r.
  - rewrite Log_allowed; [reflexivity|].
    now apply loadLogger_allows.
Qed.

End Logging.

(** ** What a request can and cannot touch *)

Section Isolation.

Context `{Ty : prompb.Types} `{St : !storage.Backend} `{Sn : snappy.Codec}.

Implicit Types (σ : World) (l : level.Logger) (w : http.ResponseWriter).
Implicit Types (r : http.Request) (h : storage.Client) (config : Config).
Implicit Types (ep : Endpoint) (c : list (option error)).

(** X8.  The reply to a request, and what the request does to the remote
    store, depend on the state of the process only through the remote
    store: the counters and the log are written, never read. *)
Theorem reply_depends_on_store_only config l ep w r σ1 σ2 :
  remote σ1 = remote σ2 →
  fst (handler config l ep w r σ1) = fst (handler config l ep w r σ2) ∧
  remote (snd (handler config l ep w r σ1))
  = remote (snd (handler config l ep w r σ2)).
Proof.
  intros Hrem. destruct ep as [|h]; unfold handler, readHandler,
    writeHandler, storage_NewClient, Client_Read, Client_Write; simpl;
    rewrite Hrem;
    repeat case_match; simplify_eq; frame_log; simpl in *;
    split; congruence.
Qed.

(** X9.  A [/read] request never writes to the backend, and a [/write]
    request neither reads from it nor constructs a client; each makes at
    most one backend operation, whatever the outcome. *)
Theorem endpoints_keep_to_their_operation config l h w r σ :
  (∃ new,
      calls (snd (readHandler config l w r σ)) = calls σ ++ new ∧
      List.filter is_write new = [] ∧
      length (List.filter is_backend_op new) ≤ 1) ∧
  (∃ new,
      calls (snd (writeHandler l h w r σ)) = calls σ ++ new ∧
      List.filter is_read new = [] ∧
      List.filter is_construction new = [] ∧
      length (List.filter is_backend_op new) ≤ 1).
Proof.
  split.
  - exists (readCalls config l r). split; [apply readHandler_calls|].
    unfold readCalls. repeat case_match; simpl; auto.
  - exists (writeCalls h r). split; [apply writeHandler_calls|].
    unfold writeCalls. repeat case_match; simpl; auto.
Qed.

Lemma readHandler_counters config l w r σ :
  ReadRequestCounter (snd (readHandler config l w r σ))
  = (ReadRequestCounter σ
     + match ioutil_ReadAll (http.Body r) with
       | Ok compressed => if is_Ok (snappy.Decode compressed) then 1 else 0
       | Err _ => 0
       end)%Z ∧
  WriteRequestCounter (snd (readHandler config l w r σ))
  = WriteRequestCounter σ.
Proof.
  unfold readHandler, storage_NewClient, Client_Read.
  split; repeat case_match; simplify_eq; frame_log; simpl in *;
    first [lia | congruence].
Qed.

Lemma writeHandler_counters l h w r σ :
  WriteRequestCounter (snd (writeHandler l h w r σ))
  = (WriteRequestCounter σ
     + match ioutil_ReadAll (http.Body r) with
       | Ok compressed => if is_Ok (snappy.Decode compressed) then 1 else 0
       | Err _ => 0
       end)%Z ∧
  ReadRequestCounter (snd (writeHandler l h w r σ))
  = ReadRequestCounter σ.
Proof.
  unfold writeHandler, Client_Write.
  split; repeat case_match; simplify_eq; frame_log; simpl in *;
    first [lia | congruence].
Qed.

Lemma ServeHTTP_counters config (srv : Server) (i : Incoming) σ :
  ReadRequestCounter (snd (ServeHTTP config srv i σ))
  = (ReadRequestCounter σ + if counted "/read" i then 1 else 0)%Z ∧
  WriteRequestCounter (snd (ServeHTTP config srv i σ))
  = (WriteRequestCounter σ + if counted "/write" i then 1 else 0)%Z.
Proof.
  unfold ServeHTTP, counted.
  destruct (String.eqb (path i) "/read") eqn:Hr.
  - apply String.eqb_eq in Hr. rewrite Hr. simpl.
    pose proof (readHandler_counters config (logger srv)
                  (http.newResponse (connection i)) (request i) σ)
      as [H1 H2].
    destruct (readHandler _ _ _ _ _) as [w' σ']. simpl in *.
    rewrite H1, H2.
    split; [|lia].
    destruct (ioutil_ReadAll _) as [compressed|e]; [|reflexivity].
    now destruct (is_Ok _).
  - destruct (String.eqb (path i) "/write") eqn:Hw; simpl.
    + pose proof (writeHandler_counters (logger srv) (writeClient srv)
                    (http.newResponse (connection i)) (request i) σ)
        as [H1 H2].
      destruct (writeHandler _ _ _ _ _) as [w' σ']. simpl in *.
      rewrite H1, H2.
      split; [lia|].
      destruct (ioutil_ReadAll _) as [compressed|e]; [|reflexivity].
      now destruct (is_Ok _).
    + split; lia.
Qed.

(** X10.  Over any sequence of requests each counter ends up higher by
    the number of requests that were routed to its handler, read whole and
    decompressed; requests on other paths, aborted bodies and bodies that
    do not decompress count nowhere, and no request counts twice. *)
Theorem counters_over_a_run config (srv : Server) (reqs : list Incoming) σ :
  ReadRequestCounter (snd (serve config srv reqs σ))
  = (ReadRequestCounter σ
     + Z.of_nat (length (List.filter (counted "/read") reqs)))%Z ∧
  WriteRequestCounter (snd (serve config srv reqs σ))
  = (WriteRequestCounter σ
     + Z.of_nat (length (List.filter (counted "/write") reqs)))%Z.
Proof.
  revert σ. induction reqs as [|i reqs IH]; intros σ; simpl.
  - split; lia.
  - pose proof (ServeHTTP_counters config srv i σ) as [Hr Hw].
    destruct (ServeHTTP config srv i σ) as [wi σi]. simpl in Hr, Hw.
    specialize (IH σi) as [IHr IHw].
    destruct (serve config srv reqs σi) as [ws σs]. simpl in *.
    rewrite IHr, IHw, Hr, Hw.
    destruct (counted "/read" i), (counted "/write" i); simpl length;
      split; lia.
Qed.

Lemma requestCalls_forwarded config (srv : Server) (i : Incoming) :
  length (List.filter is_backend_op (requestCalls config srv i))
  = if forwarded i then 1 else 0.
Proof.
  unfold requestCalls, readCalls, writeCalls, forwarded.
  destruct (String.eqb (path i) "/read") eqn:Hr.
  - apply String.eqb_eq in Hr. rewrite Hr. simpl.
    destruct (ioutil_ReadAll _) as [compressed|e]; [|reflexivity].
    destruct (decode compressed) as [req|e]; reflexivity.
  - destruct (String.eqb (path i) "/write") eqn:Hw.
    + destruct (ioutil_ReadAll _) as [compressed|e]; [|reflexivity].
      simpl. destruct (decode compressed) as [req|e]; reflexivity.
    + now destruct (ioutil_ReadAll _).
Qed.

(** X11.  Over any sequence of requests the backend is called once for
    each request that was routed to a handler and decoded, and for no
    other: a failure of one request neither suppresses nor repeats the
    call of another. *)
Theorem backend_called_once_per_decoded_request
        config (srv : Server) (reqs : list Incoming) σ :
  ∃ new,
    calls (snd (serve config srv reqs σ)) = calls σ ++ new ∧
    length (List.filter is_backend_op new)
    = length (List.filter forwarded reqs) ∧
    length (List.filter is_backend_op new) ≤ length reqs.
Proof.
  exists (flat_map (requestCalls config srv) reqs).
  split; [apply serve_calls|].
  assert (length (List.filter is_backend_op
                    (flat_map (requestCalls config srv) reqs))
          = length (List.filter forwarded reqs)) as Hlen.
  { induction reqs as [|i reqs IH]; simpl; [reflexivity|].
    rewrite List.filter_app, length_app, IH, requestCalls_forwarded.
    destruct (forwarded i); reflexivity. }
  split; [exact Hlen|]. rewrite Hlen.
  clear Hlen. induction reqs as [|i reqs IH]; simpl; [lia|].
  destruct (forwarded i); simpl; lia.
Qed.

End Isolation.

(** ** The log of a run *)

Section Records.

Context `{Ty : prompb.Types} `{St : !storage.Backend} `{Sn : snappy.Codec}.

Implicit Types (σ : World) (l : level.Logger) (w : http.ResponseWriter).
Implicit Types (r : http.Request) (h : storage.Client) (config : Config).
Implicit Types (ep : Endpoint) (c : list (option error)).

Lemma Log_appends l v kv σ :
  ∃ mid, logged (Log l v kv σ) = logged σ ++ mid ∧ length mid ≤ 1.
Proof.
  unfold Log. destruct (level.allowed l v); simpl.
  - eexists. split; [reflexivity|]. simpl. lia.
  - exists []. rewrite app_nil_r. split; [reflexivity|]. simpl. lia.
Qed.

Lemma handler_appends config l ep w r σ :
  ∃ mid,
    logged (snd (handler config l ep w r σ)) = logged σ ++ mid ∧
    length mid ≤ 1.
Proof.
  assert (∃ mid : list Entry, logged σ = logged σ ++ mid ∧ length mid ≤ 1)
    as Hnone by (exists []; rewrite app_nil_r; simpl; split; [reflexivity|lia]).
  destruct ep as [|h]; unfold handler, readHandler, writeHandler;
    unfold storage_NewClient, Client_Read, Client_Write;
    repeat case_match; simplify_eq; simpl;
    first
      [ exact Hnone
      | match goal with
        | |- context [Log ?l0 ?v ?kv ?s] =>
            let mid := fresh "mid" in
            destruct (Log_appends l0 v kv s) as (mid & Hm & Lm);
            exists mid; rewrite Hm; simpl; split; [reflexivity | exact Lm]
        end ].
Qed.

Lemma serve_appends config (srv : Server) (reqs : list Incoming) σ :
  ∃ mid,
    logged (snd (serve config srv reqs σ)) = logged σ ++ mid ∧
    length mid ≤ length reqs.
Proof.
  revert σ. induction reqs as [|i reqs IH]; intros σ; simpl.
  - exists []. rewrite app_nil_r. split; [reflexivity|]. simpl. lia.
  - assert (∃ mid, logged (snd (ServeHTTP config srv i σ)) = logged σ ++ mid
                   ∧ length mid ≤ 1) as (m1 & H1 & L1).
    { unfold ServeHTTP.
      destruct (String.eqb (path i) "/read").
      - destruct (handler_appends config (logger srv) ReadEndpoint
                    (http.newResponse (connection i)) (request i) σ)
          as (m & Hm & Lm).
        simpl in Hm. destruct (readHandler _ _ _ _ _). eauto.
      - destruct (String.eqb (path i) "/write").
        + destruct (handler_appends config (logger srv)
                      (WriteEndpoint (writeClient srv))
                      (http.newResponse (connection i)) (request i) σ)
            as (m & Hm & Lm).
          simpl in Hm. destruct (writeHandler _ _ _ _ _). eauto.
        + exists []. rewrite app_nil_r. simpl. split; [reflexivity|lia]. }
    destruct (ServeHTTP config srv i σ) as [wi σi]. simpl in H1.
    destruct (IH σi) as (m2 & H2 & L2).
    destruct (serve config srv reqs σi) as [ws σs]. simpl in *.
    exists (m1 ++ m2). rewrite H2, H1, app_assoc, length_app.
    split; [reflexivity|lia].
Qed.

Lemma Log_records l v kv σ :
  v ≠ level.InfoValue → v ≠ level.DebugValue →
  ∃ mid,
    logged (Log l v kv σ) = logged σ ++ mid ∧
    length mid ≤ 1 ∧
    Forall (λ e, lvl e = level.ErrorValue ∨ lvl e = level.WarnValue) mid.
Proof.
  intros Hi Hd. unfold Log. destruct (level.allowed l v); simpl.
  - eexists. split; [reflexivity|]. split; [simpl; lia|].
    constructor; [|constructor].
    simpl. destruct v; auto; congruence.
  - exists []. rewrite app_nil_r. split; [reflexivity|].
    split; [simpl; lia | constructor].
Qed.

Lemma handler_records config l ep w r σ :
  ∃ mid,
    logged (snd (handler config l ep w r σ)) = logged σ ++ mid ∧
    length mid ≤ 1 ∧
    Forall (λ e, lvl e = level.ErrorValue ∨ lvl e = level.WarnValue) mid.
Proof.
  assert (∃ mid : list Entry,
             logged σ = logged σ ++ mid ∧ length mid ≤ 1 ∧
             Forall (λ e, lvl e = level.ErrorValue ∨ lvl e = level.WarnValue)
                    mid)
    as Hnone.
  { exists []. rewrite app_nil_r. simpl.
    split; [reflexivity|]. split; [lia | constructor]. }
  destruct ep as [|h]; unfold handler, readHandler, writeHandler;
    unfold storage_NewClient, Client_Read, Client_Write;
    repeat case_match; simplify_eq; simpl;
    first
      [ exact Hnone
      | match goal with
        | |- context [Log ?l0 ?v ?kv ?s] =>
            let mid := fresh "mid" in
            destruct (Log_records l0 v kv s) as (mid & Hm & Lm & Fm);
            [discriminate | discriminate |];
            exists mid; rewrite Hm; simpl;
            split; [reflexivity | split; [exact Lm | exact Fm]]
        end ].
Qed.

(** X12.  The log only grows: serving any sequence of requests keeps
    every record written before it, in place, and adds at most one record
    for each request, at error or warn level whatever the logger. *)
Theorem log_only_grows config (srv : Server) (reqs : list Incoming) σ :
  ∃ mid,
    logged (snd (serve config srv reqs σ)) = logged σ ++ mid ∧
    length mid ≤ length reqs ∧
    Forall (λ e, lvl e = level.ErrorValue ∨ lvl e = level.WarnValue) mid.
Proof.
  revert σ. induction reqs as [|i reqs IH]; intros σ; simpl.
  - exists []. rewrite app_nil_r. simpl.
    split; [reflexivity|]. split; [lia | constructor].
  - assert (∃ mid,
               logged (snd (ServeHTTP config srv i σ)) = logged σ ++ mid ∧
               length mid ≤ 1 ∧
               Forall (λ e, lvl e = level.ErrorValue
                            ∨ lvl e = level.WarnValue) mid)
      as (m1 & H1 & L1 & F1).
    { unfold ServeHTTP.
      destruct (String.eqb (path i) "/read").
      - destruct (handler_records config (logger srv) ReadEndpoint
                    (http.newResponse (connection i)) (request i) σ)
          as (m & Hm & Lm & Fm).
        simpl in Hm. destruct (readHandler _ _ _ _ _). eauto.
      - destruct (String.eqb (path i) "/write").
        + destruct (handler_records config (logger srv)
                      (WriteEndpoint (writeClient srv))
                      (http.newResponse (connection i)) (request i) σ)
            as (m & Hm & Lm & Fm).
          simpl in Hm. destruct (writeHandler _ _ _ _ _). eauto.
        + exists []. rewrite app_nil_r. simpl.
          split; [reflexivity|]. split; [lia | constructor]. }
    destruct (ServeHTTP config srv i σ) as [wi σi]. simpl in H1.
    destruct (IH σi) as (m2 & H2 & L2 & F2).
    destruct (serve config srv reqs σi) as [ws σs]. simpl in *.
    exists (m1 ++ m2). rewrite H2, H1, app_assoc, length_app.
    split; [reflexivity|]. split; [lia|].
    apply Forall_app. split; assumption.
Qed.

(** X13.  From start to return, [main] logs the info record
    [starting server...] with the listen address first, before it
    listens, and, when [http.ListenAndServe] comes back with an error,
    that error last, at error level; the records of the requests lie in
    between.  A server that could not listen at all leaves exactly these
    two records, and has constructed its write client all the same. *)
Theorem main_brackets_the_log config (reqs : list Incoming)
        (err : error) σ :
  let σ' := snd (mainToReturn config reqs (Some err) σ) in
  (∃ mid,
      logged σ'
      = logged σ ++
        [{| lvl := level.InfoValue;
            keyvals := [("msg"%string, LogString "starting server...");
                        ("listen"%string,
                         LogString (ListenAddr config))] |}]
        ++ mid ++
        [{| lvl := level.ErrorValue;
            keyvals := [("action"%string, LogString "serve");
                        ("err"%string, LogError err)] |}] ∧
      length mid ≤ length reqs) ∧
  ∃ new a handle cerr,
    calls σ' = calls σ ++ CallNewClient a handle cerr :: new.
Proof.
  unfold mainToReturn, run.
  pose proof (loadLogger_allows config) as Hallow.
  assert (logged (snd (main config σ))
          = logged σ ++
            [{| lvl := level.InfoValue;
                keyvals := [("msg"%string, LogString "starting server...");
                            ("listen"%string,
                             LogString (ListenAddr config))] |}]) as Hstart.
  { unfold main, storage_NewClient.
    destruct (storage.NewClient _) as [wc cerr]. simpl.
    rewrite Log_allowed by (apply Hallow; discriminate). reflexivity. }
  assert (∃ a handle cerr,
             calls (snd (main config σ))
             = calls σ ++ [CallNewClient a handle cerr]) as Hcall.
  { unfold main, storage_NewClient.
    destruct (storage.NewClient _) as [wc cerr]. simpl.
    frame_log. simpl in *. eauto. }
  destruct (main config σ) as [srv σ1]. simpl in Hstart, Hcall.
  destruct (serve_appends config srv reqs σ1) as (mid & Hmid & Lmid).
  pose proof (serve_calls config srv reqs σ1) as Hcalls.
  destruct (serve config srv reqs σ1) as [ws σ2]. simpl in *.
  split.
  - exists mid. split; [|exact Lmid].
    rewrite Log_allowed by (apply Hallow; discriminate).
    rewrite Hmid, Hstart. now rewrite <- !app_assoc.
  - destruct Hcall as (a & handle & cerr & Hcall).
    exists (flat_map (requestCalls config srv) reqs), a, handle, cerr.
    frame_log. simpl in *.
    match goal with H : calls _ = calls σ2 |- _ => rewrite H end.
    rewrite Hcalls, Hcall. now rewrite <- app_assoc.
Qed.

(** X14.  Of the request, the [/read] handler uses the body and the
    user name and password of its Basic credentials, and nothing else;
    the [ok] of [r.BasicAuth()] is dropped, so a request without usable
    credentials is handled exactly as one with an empty user name and an
    empty password. *)
Theorem absent_credentials_are_empty_credentials config l w r1 r2 σ :
  http.Body r1 = http.Body r2 →
  callerCredentials r1 = callerCredentials r2 →
  readHandler config l w r1 σ = readHandler config l w r2 σ.
Proof.
  intros Hbody Hcreds. unfold readHandler, http.BasicAuth.
  rewrite Hbody. unfold callerCredentials in Hcreds.
  destruct (http.Credentials r1) as [[u1 p1]|],
           (http.Credentials r2) as [[u2 p2]|];
    simpl in Hcreds; simplify_eq; reflexivity.
Qed.

End Records.

(** * The claims on the test doubles *)

Import Fake.

Lemma Fake_Decode_Encode : Decode_Encode.
Proof. intros b. reflexivity. Qed.

Lemma Fake_payload_inverse : Unmarshal_Marshal (H := payload_Message) bytes.
Proof. intros m data [= <-]. reflexivity. Qed.

(** C1 as stated fails: a [/read] body that is read and decompresses but
    does not parse is a request whose decoding fails, and the read counter
    has gone from 0 to 1 when the handler returns with status 400. *)
Lemma counter_counts_unparsable_request :
  let σ := world (store (Ok [])) in
  let out := readHandler flagDefaults (loadLogger flagDefaults)
               (http.newResponse []) unparsable σ in
  ioutil_ReadAll (http.Body unparsable) = Ok [x00; x01] ∧
  decode (M := prompb.ReadRequest) [x00; x01] = Err "proto: illegal tag" ∧
  http.status (fst out) = 400%Z ∧
  ReadRequestCounter σ = 0%Z ∧
  ReadRequestCounter (snd out) = 1%Z.
Proof. repeat split. Qed.

Lemma request_counter_counts_decompressed_witness :
  let σ := world (store (Ok [])) in
  ioutil_ReadAll (http.Body unparsable) = Ok [x00; x01] ∧
  ReadRequestCounter
    (snd (readHandler flagDefaults (loadLogger flagDefaults)
            (http.newResponse []) unparsable σ))
  = (ReadRequestCounter σ + 1)%Z ∧
  WriteRequestCounter
    (snd (writeHandler (loadLogger flagDefaults) None
            (http.newResponse []) unparsable σ))
  = (WriteRequestCounter σ + 1)%Z.
Proof.
  split; [reflexivity|].
  exact (request_counter_counts_decompressed
           flagDefaults (loadLogger flagDefaults) None (http.newResponse [])
           unparsable (world (store (Ok []))) [x00; x01] eq_refl).
Defined.

(** C2 as stated fails: with no backend URL the construction returns a
    nil handle and an error; the handler calls read on that handle all the
    same, and answers 200 because the read went through. *)
Lemma read_called_on_failed_construction :
  let σ := world (store (Ok [])) in
  let out := readHandler noUrl (loadLogger noUrl)
               (http.newResponse []) wellFormed σ in
  storage.NewClient (readArgs noUrl (loadLogger noUrl) wellFormed)
  = (None, Some "storage: empty url"%string) ∧
  calls (snd out)
  = [CallNewClient (readArgs noUrl (loadLogger noUrl) wellFormed) None
       (Some "storage: empty url"%string);
     CallRead None [x01]] ∧
  http.status (fst out) = 200%Z.
Proof. repeat split. Qed.

Lemma read_proceeds_whatever_construction_returned_witness :
  let σ := world (store (Err "splunk: search failed")) in
  let out := readHandler noUrl (loadLogger noUrl)
               (http.newResponse []) wellFormed σ in
  ioutil_ReadAll (http.Body wellFormed) = Ok [x00; x0a; x01] ∧
  decode (M := prompb.ReadRequest) [x00; x0a; x01] = Ok [x01] ∧
  calls (snd out)
  = calls σ ++
    [CallNewClient (readArgs noUrl (loadLogger noUrl) wellFormed) None
       (Some "storage: empty url"%string);
     CallRead None [x01]] ∧
  refused (fst out) 500 "splunk: search failed".
Proof.
  split; [reflexivity|]. split; [reflexivity|].
  exact (read_proceeds_whatever_construction_returned
           noUrl (loadLogger noUrl) [] wellFormed
           (world (store (Err "splunk: search failed")))
           [x00; x0a; x01] [x01] eq_refl eq_refl).
Defined.

Lemma no_backend_call_when_decoding_fails_witness :
  let σ := world (store (Ok [])) in
  ioutil_ReadAll (http.Body uncompressed) = Ok [x01] ∧
  undecodable ReadEndpoint [x01] ∧
  undecodable (WriteEndpoint None) [x00; x01] ∧
  calls (snd (handler flagDefaults (loadLogger flagDefaults) ReadEndpoint
                (http.newResponse []) uncompressed σ)) = calls σ ∧
  remote (snd (handler flagDefaults (loadLogger flagDefaults)
                 (WriteEndpoint None) (http.newResponse []) unparsable σ))
  = remote σ.
Proof.
  assert (undecodable ReadEndpoint [x01]) as Hr
    by (exists "snappy: corrupt input"%string; reflexivity).
  assert (undecodable (WriteEndpoint None) [x00; x01]) as Hw
    by (exists "proto: illegal tag"%string; reflexivity).
  split; [reflexivity|]. split; [exact Hr|]. split; [exact Hw|]. split.
  - exact (proj1 (no_backend_call_when_decoding_fails
                    flagDefaults (loadLogger flagDefaults) ReadEndpoint
                    (http.newResponse []) uncompressed
                    (world (store (Ok []))) [x01] eq_refl Hr)).
  - exact (proj2 (no_backend_call_when_decoding_fails
                    flagDefaults (loadLogger flagDefaults)
                    (WriteEndpoint None) (http.newResponse []) unparsable
                    (world (store (Ok []))) [x00; x01] eq_refl Hw)).
Defined.

Lemma credential_passthrough_asymmetry_witness :
  let σ := world (store (Ok [])) in
  let l := loadLogger flagDefaults in
  ioutil_ReadAll (http.Body authenticated) = Ok [x00; x0a; x01] ∧
  decode (M := prompb.ReadRequest) [x00; x0a; x01] = Ok [x01] ∧
  (∃ a handle cerr,
      calls (snd (readHandler flagDefaults l (http.newResponse [])
                    authenticated σ))
      = calls σ ++ [CallNewClient a handle cerr; CallRead handle [x01]] ∧
      (storage.user a, storage.password a)
      = ("alice"%string, "s3cret"%string)) ∧
  writeHandler l None (http.newResponse [])
    (with_credentials (Some ("alice"%string, "s3cret"%string)) wellFormed) σ
  = writeHandler l None (http.newResponse []) wellFormed σ.
Proof.
  split; [reflexivity|]. split; [reflexivity|].
  pose proof (credential_passthrough_asymmetry
                flagDefaults (loadLogger flagDefaults) None
                {| logger := loadLogger flagDefaults; writeClient := None |}
                (http.newResponse []) (http.newResponse []) []
                authenticated wellFormed
                (world (store (Ok [])))
                (world (store (Ok [])))
                (world (store (Ok [])))
                (Some ("alice"%string, "s3cret"%string)))
    as ((new & Hcalls & Hwith & Hone) & Hwrite & _).
  split; [|exact Hwrite].
  destruct (Hone [x00; x0a; x01] [x01] eq_refl eq_refl)
    as (a & handle & cerr & ->).
  exists a, handle, cerr. split; [exact Hcalls|].
  inversion Hwith as [|? ? Ha _]. exact Ha.
Defined.

Lemma failure_status_by_class_witness :
  let σ := world busyStore in
  let ep := WriteEndpoint None in
  let out := handler flagDefaults (loadLogger flagDefaults) ep
               (http.newResponse []) wellFormed σ in
  Fails flagDefaults (loadLogger flagDefaults) wellFormed σ ep BackendError "splunk: server is busy" ∧
  refused (fst out) 500 "splunk: server is busy" ∧
  ∃ new, calls (snd out) = calls σ ++ new ∧
         length (List.filter is_backend_op new) = 1.
Proof.
  assert (Fails flagDefaults (loadLogger flagDefaults) wellFormed (world busyStore) (WriteEndpoint None)
            BackendError "splunk: server is busy") as Hf
    by (apply (Fails_backend_write flagDefaults (loadLogger flagDefaults) wellFormed (world busyStore)
                 None [x00; x0a; x01] [x01]); reflexivity).
  split; [exact Hf|].
  exact (failure_status_by_class flagDefaults (loadLogger flagDefaults)
           (WriteEndpoint None) [] wellFormed (world busyStore)
           BackendError "splunk: server is busy" Hf).
Defined.

Lemma decode_encode_roundtrip_witness :
  encode (M := prompb.WriteRequest) [x01] = Ok [x00; x0a; x01] ∧
  encode (M := prompb.ReadRequest) [x02] = Ok [x00; x0a; x02] ∧
  encode (M := prompb.ReadResponse) [x03] = Ok [x00; x0a; x03] ∧
  decode (M := prompb.WriteRequest) [x00; x0a; x01] = Ok [x01] ∧
  decode (M := prompb.ReadRequest) [x00; x0a; x02] = Ok [x02] ∧
  decode (M := prompb.ReadResponse) [x00; x0a; x03] = Ok [x03].
Proof.
  split; [reflexivity|]. split; [reflexivity|]. split; [reflexivity|].
  pose proof (decode_encode_roundtrip
                Fake_Decode_Encode Fake_payload_inverse Fake_payload_inverse
                Fake_payload_inverse
                [x01] [x02] [x03]
                [x00; x0a; x01] [x00; x0a; x02] [x00; x0a; x03]
                eq_refl eq_refl eq_refl) as (Hb & Hq & Hr & _).
  split; [exact Hb|]. split; [exact Hq | exact Hr].
Defined.



Lemma write_success_acknowledged_witness :
  let σ := world (store (Ok [])) in
  let out := writeHandler (loadLogger flagDefaults) None
               (http.newResponse [Some "write: broken pipe"%string])
               wellFormed σ in
  ioutil_ReadAll (http.Body wellFormed) = Ok [x00; x0a; x01] ∧
  decode (M := prompb.WriteRequest) [x00; x0a; x01] = Ok [x01] ∧
  fst (storage.Write None [x01] (remote σ)) = None ∧
  http.status (fst out) = 200%Z ∧
  logged (snd out)
  = [{| lvl := level.ErrorValue;
        keyvals := [("action"%string, LogString "write");
                    ("err"%string, LogError "write: broken pipe")] |}].
Proof.
  do 3 (split; [reflexivity|]).
  pose proof (write_success_acknowledged
                flagDefaults None [Some "write: broken pipe"%string]
                wellFormed (world (store (Ok [])))
                [x00; x0a; x01] [x01] eq_refl eq_refl eq_refl)
    as (_ & Hs & _ & Hl).
  split; [exact Hs | exact Hl].
Defined.

(** C9 as stated fails: started with [-timeout 9223372037], [main] gives
    the write client a timeout of -9223372036709551616 nanoseconds, the
    int64 product having wrapped, and not 9223372037 seconds. *)
Lemma timeout_wraps_past_int64 :
  let σ := world (store (Ok [])) in
  TimeoutSeconds longTimeout = 9223372037%Z ∧
  ∃ a handle cerr,
    calls (snd (main longTimeout σ)) = [CallNewClient a handle cerr] ∧
    storage.timeout a = (-9223372036709551616)%Z ∧
    storage.timeout a ≠ (TimeoutSeconds longTimeout * 1000000000)%Z.
Proof.
  split; [reflexivity|].
  eexists _, _, _. split; [reflexivity|]. split; [reflexivity|].
  discriminate.
Qed.

Lemma write_client_built_once_at_start_witness :
  let σ := world (store (Ok [])) in
  ∃ a,
    storage.timeout a = 60000000000%Z ∧
    writeClient (fst (main flagDefaults σ)) = fst (storage.NewClient a).
Proof.
  destruct (write_client_built_once_at_start flagDefaults
              [{| path := "/write"; request := wellFormed;
                  connection := [] |}]
              (world (store (Ok []))))
    as (a & new & _ & _ & _ & Hexact & Hh & _).
  exists a. split; [|exact Hh].
  apply Hexact. simpl. lia.
Defined.

(** ** Two runs *)

(** A batch posted to [/write] is stored and acknowledged; a query posted
    to [/read] without Basic credentials is read through a client built
    with two empty strings and answered with the encoded result. *)
Example run_write_then_read :
  let σ := world (store (Ok [x02])) in
  let out := run flagDefaults
               [{| path := "/write"; request := wellFormed;
                   connection := [] |};
                {| path := "/read"; request := wellFormed;
                   connection := [] |}] σ in
  map (option_map http.status) (fst out) = [Some 200%Z; Some 200%Z] ∧
  map (option_map http.body) (fst out)
  = [Some (list_byte_of_string "ok"); Some [x00; x0a; x02]] ∧
  batches (remote (snd out)) = [[x01]] ∧
  map is_backend_op (calls (snd out)) = [false; true; false; true] ∧
  Forall (constructed_with (""%string, ""%string)) (calls (snd out)) ∧
  WriteRequestCounter (snd out) = 1%Z ∧
  ReadRequestCounter (snd out) = 1%Z.
Proof.
  do 4 (split; [reflexivity|]). split; [|split; reflexivity].
  repeat constructor.
Qed.

(** A body that breaks off is answered 500 and leaves counters and
    backend alone. *)
Example run_aborted_body :
  let σ := world (store (Ok [])) in
  let out := run flagDefaults
               [{| path := "/write"; request := aborted "unexpected EOF";
                   connection := [] |}] σ in
  map (option_map http.status) (fst out) = [Some 500%Z] ∧
  map (option_map http.body) (fst out)
  = [Some (list_byte_of_string ("unexpected EOF" +:+ http.newline))] ∧
  map is_backend_op (calls (snd out)) = [false] ∧
  WriteRequestCounter (snd out) = 0%Z.
Proof. repeat split. Qed.

(** ** The further properties on the test doubles *)

Lemma write_acknowledged_only_when_stored_witness :
  let σ := world (store (Ok [])) in
  let out := writeHandler (loadLogger flagDefaults) None
               (http.newResponse []) wellFormed σ in
  http.status (fst out) = 200%Z ∧
  ∃ (compressed : bytes) (req : prompb.WriteRequest),
    ioutil_ReadAll (http.Body wellFormed) = Ok compressed ∧
    decode compressed = Ok req ∧
    storage.Write None req (remote σ) = (None, remote (snd out)) ∧
    calls (snd out) = calls σ ++ [CallWrite None req].
Proof.
  split; [reflexivity|].
  exact (write_acknowledged_only_when_stored
           (loadLogger flagDefaults) None [] wellFormed
           (world (store (Ok []))) eq_refl).
Defined.

Lemma read_answers_200_only_with_a_result_witness :
  let σ := world (store (Ok [x02])) in
  let out := readHandler flagDefaults (loadLogger flagDefaults)
               (http.newResponse []) wellFormed σ in
  http.status (fst out) = 200%Z ∧
  ∃ (compressed data : bytes) (req : prompb.ReadRequest)
    (resp : prompb.ReadResponse),
    ioutil_ReadAll (http.Body wellFormed) = Ok compressed ∧
    decode compressed = Ok req ∧
    fst (storage.Read (readClient flagDefaults (loadLogger flagDefaults) wellFormed) req (remote σ))
    = Ok resp ∧
    proto.Marshal resp = Ok data ∧
    ∃ rest, http.written (fst out)
            = (snappy.Encode data, http.next []) :: rest.
Proof.
  split; [reflexivity|].
  exact (read_answers_200_only_with_a_result
           flagDefaults (loadLogger flagDefaults) [] wellFormed
           (world (store (Ok [x02]))) eq_refl).
Defined.

Lemma failures_logged_by_stage_witness :
  let σ := world (store (Ok [])) in
  Fails flagDefaults (loadLogger flagDefaults) unparsable σ ReadEndpoint ProtocolError
        "proto: illegal tag" ∧
  Fails flagDefaults (loadLogger flagDefaults) wellFormed (world busyStore) (WriteEndpoint None)
        BackendError "splunk: server is busy" ∧
  logged (snd (handler flagDefaults (loadLogger flagDefaults) ReadEndpoint
                 (http.newResponse []) unparsable σ))
  = logged σ ++ failureLog ProtocolError "proto: illegal tag" ∧
  logged (snd (handler flagDefaults (loadLogger flagDefaults)
                 (WriteEndpoint None) (http.newResponse []) wellFormed
                 (world busyStore)))
  = logged (world busyStore)
    ++ failureLog BackendError "splunk: server is busy".
Proof.
  assert (Fails flagDefaults (loadLogger flagDefaults) unparsable (world (store (Ok [])))
            ReadEndpoint ProtocolError "proto: illegal tag") as Hp
    by (apply (Fails_protocol_read flagDefaults (loadLogger flagDefaults) unparsable
                 (world (store (Ok []))) [x00; x01] [x01]); reflexivity).
  assert (Fails flagDefaults (loadLogger flagDefaults) wellFormed (world busyStore) (WriteEndpoint None)
            BackendError "splunk: server is busy") as Hb
    by (apply (Fails_backend_write flagDefaults (loadLogger flagDefaults) wellFormed (world busyStore)
                 None [x00; x0a; x01] [x01]); reflexivity).
  split; [exact Hp|]. split; [exact Hb|]. split.
  - exact (failures_logged_by_stage flagDefaults ReadEndpoint [] unparsable
             (world (store (Ok []))) ProtocolError "proto: illegal tag" Hp).
  - exact (failures_logged_by_stage flagDefaults (WriteEndpoint None) []
             wellFormed (world busyStore) BackendError
             "splunk: server is busy" Hb).
Defined.

Lemma read_reply_write_failure_witness :
  let σ := world (store (Ok [x02])) in
  let c := [Some "write: broken pipe"%string] in
  let out := readHandler flagDefaults (loadLogger flagDefaults)
               (http.newResponse c) wellFormed σ in
  ioutil_ReadAll (http.Body wellFormed) = Ok [x00; x0a; x01] ∧
  decode (M := prompb.ReadRequest) [x00; x0a; x01] = Ok [x01] ∧
  fst (storage.Read (readClient flagDefaults (loadLogger flagDefaults) wellFormed) [x01] (remote σ))
  = Ok [x02] ∧
  proto.Marshal (M := prompb.ReadResponse) [x02] = Ok [x0a; x02] ∧
  http.next c = Some "write: broken pipe"%string ∧
  http.status (fst out) = 200%Z ∧
  http.sent (fst out) = protobufHeaders ∧
  length (http.written (fst out)) = 2 ∧
  length (logged (snd out)) = 1.
Proof.
  do 5 (split; [reflexivity|]).
  pose proof (read_reply_write_failure
                flagDefaults [Some "write: broken pipe"%string] wellFormed
                (world (store (Ok [x02])))
                [x00; x0a; x01] [x0a; x02] [x01] [x02]
                "write: broken pipe"
                eq_refl eq_refl eq_refl eq_refl eq_refl)
    as (Hs & Hh & Hw & _ & Hl).
  split; [exact Hs|]. split; [exact Hh|].
  split; [now rewrite Hw | now rewrite Hl].
Defined.

Lemma reply_depends_on_store_only_witness :
  let σ1 := world (store (Ok [x02])) in
  let σ2 := ReadRequestCounter_Add 41 (world (store (Ok [x02]))) in
  remote σ1 = remote σ2 ∧
  ReadRequestCounter σ1 ≠ ReadRequestCounter σ2 ∧
  fst (handler flagDefaults (loadLogger flagDefaults) ReadEndpoint
         (http.newResponse []) wellFormed σ1)
  = fst (handler flagDefaults (loadLogger flagDefaults) ReadEndpoint
           (http.newResponse []) wellFormed σ2).
Proof.
  split; [reflexivity|]. split; [discriminate|].
  exact (proj1 (reply_depends_on_store_only
                  flagDefaults (loadLogger flagDefaults) ReadEndpoint
                  (http.newResponse []) wellFormed
                  (world (store (Ok [x02])))
                  (ReadRequestCounter_Add 41
                     (world (store (Ok [x02]))))
                  eq_refl)).
Defined.

Lemma absent_credentials_are_empty_credentials_witness :
  let σ := world (store (Ok [x02])) in
  let r1 := with_credentials None wellFormed in
  let r2 := with_credentials (Some (""%string, ""%string))
              (with_method "GET" wellFormed) in
  http.Body r1 = http.Body r2 ∧
  callerCredentials r1 = callerCredentials r2 ∧
  r1 ≠ r2 ∧
  readHandler flagDefaults (loadLogger flagDefaults) (http.newResponse [])
    r1 σ
  = readHandler flagDefaults (loadLogger flagDefaults) (http.newResponse [])
      r2 σ.
Proof.
  split; [reflexivity|]. split; [reflexivity|]. split; [discriminate|].
  exact (absent_credentials_are_empty_credentials
           flagDefaults (loadLogger flagDefaults) (http.newResponse [])
           (with_credentials None wellFormed)
           (with_credentials (Some (""%string, ""%string))
              (with_method "GET" wellFormed))
           (world (store (Ok [x02]))) eq_refl eq_refl).
Defined.
